(** * pass-edt-sign: the schedule capture-and-stamp pipeline

    A shallow embedding of [pass-schedule-pdf.py] and the properties its
    specification states about it.

    Conventions of the embedding:
    - a Python [str] is the list of its code points ([pystr]);
    - [os.environ] is a finite map from variable names to values;
    - the files on disk are a finite map from paths to what they hold, a
      PDF document being seen as its list of pages;
    - a Python call either returns a value or raises ([outcome]);
    - a [datetime] is represented by the proleptic Gregorian ordinal of its
      date (January 1st of year 1 is day 1), as CPython's [toordinal] does:
      the program only adds whole days and formats with [%Y%m%d];
    - what the browser, the PDF libraries and the operating system answer is
      not under the program's control: it is read from explicit oracle
      records. *)

From Stdlib Require Import ZArith NArith QArith List Lia Bool Ascii String.
From Stdlib Require Import Strings.Byte DecimalString.
From stdpp Require Import gmap strings list fin_maps.

Open Scope Z_scope.

(** ** Python values shared by the whole script *)

(** A Python [str]: the sequence of its Unicode code points. *)
Abbreviation pystr := (list N).

(** The code points of an ASCII literal. *)
Fixpoint str_of (s : string) : pystr :=
  match s with
  | EmptyString => []
  | String c s' => N_of_ascii c :: str_of s'
  end.

(** Why [add_message_to_pdf] raised [PDFProcessingError]. *)
Inductive pdf_failure :=
| InputNotFound      (* "Input PDF file not found: ..." *)
| MessageEmpty       (* "Message cannot be empty" *)
| ReadFailed         (* "Failed to read input PDF: ..." *)
| NoPages            (* "Input PDF has no pages" *)
| SaveFailed         (* "Failed to save output PDF: ..." *)
| ProcessFailed.     (* "Failed to process PDF: ..." *)

(** The exceptions of the script: its three custom classes, and the built-in
    ones it can meet. [OtherException] stands for any other subclass of
    [Exception] raised by a library or by the operating system. All of them
    derive from [Exception]: an [except Exception] clause catches them. *)
Inductive exn :=
| ScheduleGenerationError
| PDFProcessingError (why : pdf_failure)
| BrowserNavigationError
| ValueError
| OverflowError
| OtherException.

Definition is_PDFProcessingError (e : exn) : bool :=
  match e with
  | PDFProcessingError _ => true
  | _ => false
  end.

(** The result of a Python call. *)
Inductive outcome (A : Type) :=
| Return (a : A)
| Raise (e : exn).
Arguments Return {A} a.
Arguments Raise {A} e.

Definition bind {A B} (r : outcome A) (k : A -> outcome B) : outcome B :=
  match r with
  | Return a => k a
  | Raise e => Raise e
  end.

Notation "x <- c1 ;; c2" := (bind c1 (fun x => c2))
  (at level 100, c1 at next level, right associativity).

(** Truthiness of an optional string, as in [if target_week:]: [None] and the
    empty string are false. *)
Definition truthy (s : option pystr) : bool :=
  match s with
  | Some (_ :: _) => true
  | _ => false
  end.

(** ** The [datetime] operations the script uses *)

Module Datetime.

Definition MINYEAR : Z := 1.
Definition MAXYEAR : Z := 9999.

Definition is_leap (year : Z) : bool :=
  (year mod 4 =? 0) && (negb (year mod 100 =? 0) || (year mod 400 =? 0)).

(** Number of days before January 1st of [year]. *)
Definition days_before_year (year : Z) : Z :=
  let y := year - 1 in y * 365 + y / 4 - y / 100 + y / 400.

Definition days_in_month (year month : Z) : Z :=
  if month =? 2 then (if is_leap year then 29 else 28)
  else if (month =? 4) || (month =? 6) || (month =? 9) || (month =? 11)
       then 30 else 31.

(** Number of days of [year] before the first day of [month]; the leap
    day is counted for the months after February. *)
Definition days_before_month (year month : Z) : Z :=
  fold_left (fun acc m => acc + days_in_month year m)
            (map Z.of_nat (seq 1 (Z.to_nat (month - 1)))) 0.

(** Ordinal of [datetime.max]: December 31st, 9999. *)
Definition MAXORDINAL : Z := 3652059.

Definition ymd2ord (year month day : Z) : Z :=
  days_before_year year + days_before_month year month + day.

(** [datetime(year, month, day)]: [ValueError] outside the supported
    range. *)
Definition datetime (year month day : Z) : outcome Z :=
  if (MINYEAR <=? year) && (year <=? MAXYEAR)
     && (1 <=? month) && (month <=? 12)
     && (1 <=? day) && (day <=? days_in_month year month)
  then Return (ymd2ord year month day)
  else Raise ValueError.

(** [d.weekday()]: Monday is 0. *)
Definition weekday (d : Z) : Z := (d + 6) mod 7.

(** [d.isoweekday()]: Monday is 1, Sunday is 7. *)
Definition isoweekday (d : Z) : Z :=
  if d mod 7 =? 0 then 7 else d mod 7.

(** [timedelta(days=n)]: the magnitude is limited to 999999999 days. *)
Definition timedelta (days : Z) : outcome Z :=
  if Z.abs days <=? 999999999 then Return days else Raise OverflowError.

(** [d + delta] for a delta of whole days: the result has to be a date
    between [datetime.min] and [datetime.max]. *)
Definition add (d delta : Z) : outcome Z :=
  let r := d + delta in
  if (0 <? r) && (r <=? MAXORDINAL) then Return r else Raise OverflowError.

Definition sub (d delta : Z) : outcome Z := add d (- delta).

(** Year, month and day of an ordinal (CPython's [_ord2ymd]). *)
Definition ord2ymd (n0 : Z) : Z * Z * Z :=
  let n := n0 - 1 in
  let n400 := n / 146097 in
  let n := n mod 146097 in
  let n100 := n / 36524 in
  let n := n mod 36524 in
  let n4 := n / 1461 in
  let n := n mod 1461 in
  let n1 := n / 365 in
  let n := n mod 365 in
  let year := n400 * 400 + 1 + n100 * 100 + n4 * 4 + n1 in
  if (n1 =? 4) || (n100 =? 4) then (year - 1, 12, 31)
  else
    let month := Z.shiftr (n + 50) 5 in
    let preceding := days_before_month year month in
    if n <? preceding
    then
      let month' := month - 1 in
      let preceding' := preceding - days_in_month year month' in
      (year, month', n - preceding' + 1)
    else (year, month, n - preceding + 1).

Definition year_of (d : Z) : Z := fst (fst (ord2ymd d)).

(** The [width] low decimal digits of [n], most significant first. *)
Fixpoint digits (width : nat) (n : Z) : pystr :=
  match width with
  | O => []
  | S w => digits w (n / 10) ++ [Z.to_N (48 + n mod 10)]
  end.

(** The decimal writing of a number that is not negative. *)
Definition decimal (n : Z) : pystr :=
  str_of (NilEmpty.string_of_uint (N.to_uint (Z.to_N n))).

(** [d.strftime("%Y%m%d")]: the month and the day on two digits each. The
    year is written by the [strftime] of the C library, and glibc does not
    pad it: a year below 1000 takes fewer than four digits
    ([datetime(999, 9, 16)] gives [9990916]). *)
Definition strftime_Ymd (d : Z) : pystr :=
  let '(y, m, dd) := ord2ymd d in
  decimal y ++ digits 2 m ++ digits 2 dd.

End Datetime.

(** The system clock: [clock k] is the date read by the [k]-th call of
    [datetime.now()] made from a given point of the run. *)
Definition clock := nat -> Z.

(** The clock seen after one reading. *)
Definition tick (clk : clock) : clock := fun k => clk (S k).

(** ** What the script prints

    The log keeps, in the order of emission, the messages that tell the
    paths through the script apart. *)

Inductive log_event :=
(* DateUtils *)
| MondayError (week_number : Z)
| UsingTargetWeek (raw date : pystr)
| InvalidTargetWeek (raw : pystr)
| UsingTargetDate (date : pystr)
| UsingWeeksOffset (raw date : pystr)
| InvalidWeeksOffset (raw : pystr)
| UsingCurrentDate (date : pystr)
(* generate_schedule_pdf *)
| PrintButtonNotFound            (* "ERROR: Could not find PASS print button" *)
| CdpNoData                      (* "CDP method failed, no data returned" *)
| PdfGenerationError             (* "Error during PDF generation: ..." *)
| FinalPdfSavedTo (path : pystr) (* "Final PDF saved to: ..." *)
| PdfSavedTo (path : pystr)      (* "PDF saved to: ..." *)
(* main *)
| PdfGenerated (pdf_path : option pystr)  (* "PDF generated: ..." *)
| GenerationSucceeded            (* "PDF de l'emploi du temps genere avec succes" *)
| GenerationError                (* "Erreur de generation: ..." *)
| PdfError                       (* "Erreur de traitement PDF: ..." *)
| NavigationError                (* "Erreur de navigation: ..." *)
| UnexpectedError                (* "Erreur inattendue: ..." *)
(* the script *)
| GenerationCompleted            (* "Schedule PDF generation completed" *)
| StoppedByUser.                 (* "Script arrete par l'utilisateur." *)

Abbreviation log := (list log_event).

(** ** class DateUtils *)

Section DateUtils.

(** [int(s)] on a string: [None] stands for [ValueError]. Which strings
    Python reads as an integer (signs, blanks, underscores, digits of other
    scripts, the limit on the number of digits) is the interpreter's
    business. *)
Variable py_int : pystr -> option Z.

(** [get_monday_from_week_number(year, week_number)]. The whole body is
    under [try ... except Exception], whose handler prints a warning and
    returns the current date. *)
Definition get_monday_from_week_number
    (clk : clock) (year week_number : Z) : pystr * log :=
  match
    (jan4 <- Datetime.datetime year 1 4 ;;
     back <- Datetime.timedelta (Datetime.weekday jan4) ;;
     monday_week1 <- Datetime.sub jan4 back ;;
     weeks <- Datetime.timedelta (7 * (week_number - 1)) ;;
     target_monday <- Datetime.add monday_week1 weeks ;;
     Return (Datetime.strftime_Ymd target_monday))
  with
  | Return s => (s, [])
  | Raise _ => (Datetime.strftime_Ymd (clk O), [MondayError week_number])
  end.

(** The three last steps of [get_target_date], each one falling through to
    the next. *)
Definition use_current_date (clk : clock) : outcome pystr * log :=
  let current_date := Datetime.strftime_Ymd (clk O) in
  (Return current_date, [UsingCurrentDate current_date]).

Definition use_weeks_offset
    (clk : clock) (weeks_offset : pystr) (offset : Z) : outcome pystr * log :=
  let today := clk O in
  match (delta <- Datetime.timedelta (7 * offset) ;;
         Datetime.add today delta) with
  | Return target =>
      let calculated_date := Datetime.strftime_Ymd target in
      (Return calculated_date, [UsingWeeksOffset weeks_offset calculated_date])
  | Raise e => (Raise e, [])
  end.

Definition use_target_week
    (clk : clock) (target_week : pystr) (week_num : Z) : outcome pystr * log :=
  let current_year := Datetime.year_of (clk O) in
  let '(calculated_date, l) :=
    get_monday_from_week_number (tick clk) current_year week_num in
  (Return calculated_date, l ++ [UsingTargetWeek target_week calculated_date]).

Definition from_weeks_offset
    (weeks_offset : option pystr) (clk : clock) : outcome pystr * log :=
  match weeks_offset with
  | Some (c :: w) =>
      match py_int (c :: w) with
      | Some offset => use_weeks_offset clk (c :: w) offset
      | None =>
          let '(r, l) := use_current_date clk in
          (r, InvalidWeeksOffset (c :: w) :: l)
      end
  | _ => use_current_date clk
  end.

Definition from_target_date
    (target_date weeks_offset : option pystr) (clk : clock)
  : outcome pystr * log :=
  match target_date with
  | Some (c :: d) => (Return (c :: d), [UsingTargetDate (c :: d)])
  | _ => from_weeks_offset weeks_offset clk
  end.

(** [get_target_date()]: the three variables are read first, then tried in
    turn. *)
Definition get_target_date
    (env : gmap string pystr) (clk : clock) : outcome pystr * log :=
  let target_week := env !! "TARGET_WEEK"%string in
  let target_date := env !! "TARGET_DATE"%string in
  let weeks_offset := env !! "WEEKS_OFFSET"%string in
  match target_week with
  | Some (c :: w) =>
      match py_int (c :: w) with
      | Some week_num => use_target_week clk (c :: w) week_num
      | None =>
          let '(r, l) := from_target_date target_date weeks_offset clk in
          (r, InvalidTargetWeek (c :: w) :: l)
      end
  | _ => from_target_date target_date weeks_offset clk
  end.

(** [datetime.strptime(s, "%Y%m%d")]: [None] stands for [ValueError]. *)
Variable strptime_Ymd : pystr -> option Z.

(** Monday of ISO week 1 of [year] (CPython's [_isoweek1monday]). *)
Definition isoweek1monday (year : Z) : Z :=
  let firstday := Datetime.ymd2ord year 1 1 in
  let firstweekday := (firstday + 6) mod 7 in
  let week1monday := firstday - firstweekday in
  if 3 <? firstweekday then week1monday + 7 else week1monday.

(** [d.isocalendar()[1]], the ISO week number. *)
Definition isocalendar_week (d : Z) : Z :=
  let year := Datetime.year_of d in
  let week := (d - isoweek1monday year) / 7 in
  if week <? 0 then (d - isoweek1monday (year - 1)) / 7 + 1
  else if (52 <=? week) && (isoweek1monday (year + 1) <=? d) then 1
  else week + 1.

(** [str(n)] for an integer. *)
Definition str_of_int (n : Z) : pystr :=
  str_of (NilEmpty.string_of_int (Z.to_int n)).

(** [get_week_number_from_date(date_str)]: ["S<week>"], or ["S--"] when
    the date cannot be read. *)
Definition get_week_number_from_date (date_str : pystr) : pystr :=
  match strptime_Ymd date_str with
  | Some date_obj => str_of "S" ++ str_of_int (isocalendar_week date_obj)
  | None => str_of "S--"
  end.

End DateUtils.

(** ** class FileUtils *)

Module FileUtils.

(** The nine characters of the literal [forbidden_chars], in its order:
    less-than, greater-than, colon, double quote, vertical bar, question
    mark, asterisk, backslash and slash. *)
Definition forbidden_chars : pystr :=
  [60; 62; 58; 34; 124; 63; 42; 92; 47]%N.

(** The hyphen ['-']. *)
Definition hyphen : N := 45%N.

(** [s.replace(old, new)] for one-character [old] and [new]. *)
Definition replace_char (old new : N) (s : pystr) : pystr :=
  map (fun c => if N.eqb c old then new else c) s.

(** [c.isspace()]: the code points Python counts as white space. *)
Definition isspace (c : N) : bool :=
  ((9 <=? c) && (c <=? 13) || (28 <=? c) && (c <=? 32)
   || (c =? 133) || (c =? 160) || (c =? 5760)
   || (8192 <=? c) && (c <=? 8202)
   || (c =? 8232) || (c =? 8233) || (c =? 8239) || (c =? 8287)
   || (c =? 12288))%N.

Fixpoint lstrip (s : pystr) : pystr :=
  match s with
  | [] => []
  | c :: s' => if isspace c then lstrip s' else s
  end.

Fixpoint rstrip (s : pystr) : pystr :=
  match s with
  | [] => []
  | c :: s' =>
      match rstrip s' with
      | [] => if isspace c then [] else [c]
      | r => c :: r
      end
  end.

(** [s.strip()]. *)
Definition strip (s : pystr) : pystr := rstrip (lstrip s).

(** [clean_filename_for_windows(filename)]: the loop over
    [forbidden_chars], then [strip]. *)
Definition clean_filename_for_windows (filename : pystr) : pystr :=
  let cleaned :=
    fold_left (fun cleaned char => replace_char char hyphen cleaned)
              forbidden_chars filename in
  strip cleaned.

(** The en dash of the file name pattern. *)
Definition en_dash : N := 8211%N.

(** [os.getenv(name, default)]. *)
Definition getenv_default
    (env : gmap string pystr) (name : string) (dflt : pystr) : pystr :=
  default dflt (env !! name).

(** [create_pdf_filename(target_date)]; [week_label] is
    [DateUtils.get_week_number_from_date]. *)
Definition create_pdf_filename
    (week_label : pystr -> pystr) (env : gmap string pystr) (clk : clock)
    (target_date : option pystr) : pystr :=
  let nom_prenom :=
    getenv_default env "NOM_PRENOM" (str_of "Nom Pr" ++ [233%N] ++ str_of "nom") in
  let promo := getenv_default env "PROMO" (str_of "PROMO") in
  let semaine :=
    if truthy target_date then week_label (default [] target_date)
    else week_label (Datetime.strftime_Ymd (clk O)) in
  let sep := str_of " " ++ [en_dash] ++ str_of " " in
  clean_filename_for_windows
    (nom_prenom ++ sep ++ promo ++ sep ++ semaine ++ str_of ".pdf").

End FileUtils.

(** ** PDF documents, as PyPDF2 and reportlab present them *)

(** The drawing operations the script sends to a reportlab canvas. Lengths
    are in points; the page sizes read from the document are rationals. *)
Inductive draw_op :=
| SetFont (name : pystr) (size : Z)
| SetFillColor (color : pystr)
| DrawString (x y : Z) (text : pystr)
| DrawImage (path : pystr) (x : Q) (y width height : Z) (mask : pystr).

(** A page: its media box and its content stream. *)
Record page := {
  mediabox_width : Q;
  mediabox_height : Q;
  content : list draw_op
}.

(** [page.merge_page(overlay)]: the content of [overlay] is drawn over the
    content of [page]; the media box of [page] is kept. *)
Definition merge_page (pg overlay : page) : page :=
  {| mediabox_width := mediabox_width pg;
     mediabox_height := mediabox_height pg;
     content := content pg ++ content overlay |}.

(** ** The files on disk *)

Abbreviation bytes := (list byte).

(** What a file holds: a PDF document, seen as the pages a [PdfReader]
    finds in it and a [PdfWriter] puts in it, or anything else. *)
Inductive file_data :=
| PdfDocument (pages : list page)
| OtherData (data : bytes).

(** What a function does to the files, in order. Directories are not
    tracked. *)
Inductive fs_effect :=
| WriteFile (path : pystr) (data : file_data)
| CopyFile (src dst : pystr)
| RemoveFile (path : pystr)
| MoveFile (src dst : pystr).

Definition apply_effect (fs : gmap pystr file_data) (e : fs_effect)
  : gmap pystr file_data :=
  match e with
  | WriteFile path data => <[path := data]> fs
  | CopyFile src dst =>
      match fs !! src with
      | Some data => <[dst := data]> fs
      | None => fs
      end
  | RemoveFile path => delete path fs
  | MoveFile src dst =>
      match fs !! src with
      | Some data => <[dst := data]> (delete src fs)
      | None => fs
      end
  end.

Definition apply_effects (fs : gmap pystr file_data) (es : list fs_effect)
  : gmap pystr file_data :=
  fold_left apply_effect es fs.

(** [os.path.exists(path)]. *)
Definition exists_file (fs : gmap pystr file_data) (path : pystr) : bool :=
  bool_decide (is_Some (fs !! path)).

(** What can go wrong in [add_message_to_pdf] outside the control of the
    script. Pages are numbered from 0, as [page_num]. *)
Inductive save_behaviour :=
| Saves
| FailsBeforeOpen                  (* [os.makedirs] or [open] raises *)
| FailsWhileWriting (written : bytes).  (* [writer.write] raises: the file
                                           holds what was written so far *)

Record pdf_faults := {
  (* [reader.pages] raises: the page tree is read lazily *)
  pages_fails : bool;
  (* page [i]: reading the media box, drawing the text or [can.save()]
     raises *)
  overlay_fails : nat -> bool;
  (* page [i]: [can.drawImage] raises *)
  signature_fails : nat -> bool;
  (* page [i]: reading the overlay back or [page.merge_page] raises *)
  merge_fails : nat -> bool;
  (* page [i]: [writer.add_page(page)] raises, in the [try] block *)
  add_page_fails : nat -> bool;
  (* page [i]: [writer.add_page(page)] raises, in the [except] block *)
  add_page_again_fails : nat -> bool;
  save : save_behaviour;
  (* [shutil.copy2] raises *)
  copy_fails : bool
}.

(** ** add_message_to_pdf *)

Section PostProcessor.

(** [os.path.abspath]. *)
Variable abspath : pystr -> pystr.

Variable fs : gmap pystr file_data.
Variable env : gmap string pystr.
Variable flt : pdf_faults.

(** The overlay drawn for page [page_num]: a canvas of the size of the
    page, the message in bold at (30, 30) and, when the signature file is
    configured and present, the signature, 80 by 40, at 30 points from the
    right and bottom edges. A failure of [drawImage] leaves the overlay
    without signature. *)
Definition overlay_for (page_num : nat) (pg : page) (message : pystr) : page :=
  let page_width := mediabox_width pg in
  let page_height := mediabox_height pg in
  let text_x := 30 in
  let text_y := 30 in
  let text :=
    [ SetFont (str_of "Helvetica-Bold") 12;
      SetFillColor (str_of "blue");
      DrawString text_x text_y message ] in
  let signature_file :=
    FileUtils.getenv_default env "SIGNATURE_FILE" (str_of "signature.png") in
  let signature_path := abspath signature_file in
  let signature :=
    if truthy (Some signature_file) && exists_file fs signature_path
       && negb (signature_fails flt page_num)
    then
      let signature_width := 80 in
      let signature_height := 40 in
      let sig_x :=
        (page_width - inject_Z signature_width - inject_Z 30)%Q in
      let sig_y := 30 in
      [ DrawImage signature_path sig_x sig_y signature_width
                  signature_height (str_of "auto") ]
    else [] in
  {| mediabox_width := page_width;
     mediabox_height := page_height;
     content := text ++ signature |}.

(** The [except Exception as page_error] block of the loop: the page, in
    the state the [try] block left it, is added to the writer; an
    exception raised here leaves the loop. *)
Definition add_page_in_handler
    (page_num : nat) (pg : page) (writer : list page) : outcome (list page) :=
  if add_page_again_fails flt page_num then Raise OtherException
  else Return (writer ++ [pg]).

(** One turn of the loop over [enumerate(reader.pages)]. [merge_page]
    changes the page object in place, so the page added after a merge is
    the merged one. *)
Definition process_page
    (message : pystr) (page_num : nat) (pg : page) (writer : list page)
  : outcome (list page) :=
  if overlay_fails flt page_num then add_page_in_handler page_num pg writer
  else
    let pg' :=
      if merge_fails flt page_num then pg
      else merge_page pg (overlay_for page_num pg message) in
    if add_page_fails flt page_num then add_page_in_handler page_num pg' writer
    else Return (writer ++ [pg']).

Fixpoint process_pages
    (message : pystr) (page_num : nat) (pages writer : list page)
  : outcome (list page) :=
  match pages with
  | [] => Return writer
  | pg :: rest =>
      writer' <- process_page message page_num pg writer ;;
      process_pages message (S page_num) rest writer'
  end.

(** The body of the outer [try]. *)
Definition try_add_message
    (input_pdf_path output_pdf_path message : pystr)
  : outcome bool * list fs_effect :=
  if negb (truthy (Some input_pdf_path))
     || negb (exists_file fs input_pdf_path)
  then (Raise (PDFProcessingError InputNotFound), [])
  else if negb (truthy (Some message))
          || negb (truthy (Some (FileUtils.strip message)))
  then (Raise (PDFProcessingError MessageEmpty), [])
  else
    match fs !! input_pdf_path with
    | Some (PdfDocument pages) =>
        if pages_fails flt then (Raise OtherException, [])
        else if (length pages =? 0)%nat
        then (Raise (PDFProcessingError NoPages), [])
        else
          match process_pages message O pages [] with
          | Raise e => (Raise e, [])
          | Return writer =>
              match save flt with
              | Saves =>
                  (Return true,
                   [WriteFile output_pdf_path (PdfDocument writer)])
              | FailsBeforeOpen =>
                  (Raise (PDFProcessingError SaveFailed), [])
              | FailsWhileWriting written =>
                  (Raise (PDFProcessingError SaveFailed),
                   [WriteFile output_pdf_path (OtherData written)])
              end
          end
    | _ => (Raise (PDFProcessingError ReadFailed), [])
    end.

(** [add_message_to_pdf(input_pdf_path, output_pdf_path, message)]: the
    body, under [except PDFProcessingError: raise] and
    [except Exception], which tries to copy the input to the output and
    raises [PDFProcessingError]. *)
Definition add_message_to_pdf
    (input_pdf_path output_pdf_path message : pystr)
  : outcome bool * list fs_effect :=
  match try_add_message input_pdf_path output_pdf_path message with
  | (Return v, effects) => (Return v, effects)
  | (Raise e, effects) =>
      if is_PDFProcessingError e then (Raise e, effects)
      else
        let copy :=
          if exists_file (apply_effects fs effects) input_pdf_path
             && negb (copy_fails flt)
          then [CopyFile input_pdf_path output_pdf_path]
          else [] in
        (Raise (PDFProcessingError ProcessFailed), effects ++ copy)
  end.

End PostProcessor.

(** ** generate_schedule_pdf, main and the script *)

(** What the browser and the operating system answer during the capture.
    Elements of the page are numbered. *)
Record browser := {
  (* the save folder is missing and [os.makedirs] raises *)
  makedirs_fails : bool;
  (* [driver.find_element(By.XPATH, selector)]: [None] stands for the
     exception raised when nothing matches *)
  find_element : pystr -> option nat;
  (* [element.get_attribute("onclick")] raises *)
  get_attribute_fails : nat -> bool;
  (* installing the [window.print] override raises *)
  execute_script_fails : bool;
  (* [element.click()] raises *)
  click_fails : nat -> bool;
  (* [driver.execute_cdp_cmd('Page.printToPDF', ...)]: raises, or returns a
     dictionary, of which only the ['data'] entry is looked at *)
  print_to_pdf : outcome (option pystr);
  (* [base64.b64decode(data)], as the file these bytes make *)
  b64decode : pystr -> outcome file_data;
  (* writing the temporary file *)
  temp_write : save_behaviour;
  (* [os.remove] raises *)
  remove_fails : bool;
  (* [shutil.move] to this destination raises *)
  move_fails : pystr -> bool
}.

(** What a call of [input()] does: it returns the line entered, it raises
    [KeyboardInterrupt] (the operator pressed Ctrl+C), or it raises another
    exception ([EOFError] when the standard input is at its end).
    [KeyboardInterrupt] is not an [Exception]: [except Exception] does not
    catch it. *)
Inductive input_outcome :=
| Entered
| Interrupted
| InputError.

(** What can fail before the capture, and what the two prompts of the
    debug mode get. *)
Record session_faults := {
  ensure_directory_fails : bool;
  chrome_options_fail : bool;
  (* [webdriver.Chrome(options=options)] raises: [driver] stays [None] *)
  chrome_start_fails : bool;
  (* a step of the login flow fails; [login] turns every failure into
     [BrowserNavigationError] *)
  login_fails : bool;
  (* likewise for [navigate_to_schedule] *)
  navigate_fails : bool;
  (* [input()] in the [finally] block of [main] *)
  input_in_main : input_outcome;
  (* [input()] at the end of the script *)
  input_in_script : input_outcome
}.

(** How a call of [main] ends: it returns a status, or the
    [KeyboardInterrupt] raised in its [finally] block leaves it. *)
Inductive ending :=
| Returns (status : Z)
| KeyboardInterrupt.

(** [s.replace(old, new)] for a non-empty [old]: the occurrences are
    replaced from left to right, without overlap. [skip] counts the
    characters of an occurrence still to be dropped. *)
Fixpoint starts_with (prefix s : pystr) : bool :=
  match prefix, s with
  | [], _ => true
  | p :: prefix', c :: s' => N.eqb p c && starts_with prefix' s'
  | _ :: _, [] => false
  end.

Fixpoint replace_from (old new : pystr) (skip : nat) (s : pystr) : pystr :=
  match s with
  | [] => []
  | c :: s' =>
      match skip with
      | S k => replace_from old new k s'
      | O =>
          if starts_with old s
          then new ++ replace_from old new (length old - 1) s'
          else c :: replace_from old new O s'
      end
  end.

Definition replace (old new s : pystr) : pystr := replace_from old new O s.

(** [os.getenv('DEBUG_MODE', 'false').lower() == 'true']; [lower] is
    [str.lower]. *)
Definition debug_mode_of
    (lower : pystr -> pystr) (env : gmap string pystr) : bool :=
  bool_decide
    (lower (FileUtils.getenv_default env "DEBUG_MODE" (str_of "false"))
     = str_of "true").

Section Pipeline.

Variable abspath : pystr -> pystr.
(** [os.path.join], also for [Path(folder) / name]. *)
Variable path_join : pystr -> pystr -> pystr.
(** [DateUtils.get_week_number_from_date]. *)
Variable week_label : pystr -> pystr.

Variable env : gmap string pystr.
Variable br : browser.
Variable flt : pdf_faults.

(** [FileUtils.safe_rename_pdf(temp_path, target_filename, save_folder)]:
    the path where the file ends up. *)
Definition safe_rename_pdf
    (temp_path target_filename save_folder : pystr)
  : pystr * list fs_effect :=
  let final_path := path_join save_folder target_filename in
  if negb (move_fails br final_path)
  then (final_path, [MoveFile temp_path final_path])
  else
    let fallback_name :=
      FileUtils.replace_char 32%N 95%N
        (FileUtils.replace_char FileUtils.en_dash FileUtils.hyphen
           target_filename) in
    let fallback_path := path_join save_folder fallback_name in
    if negb (move_fails br fallback_path)
    then (fallback_path, [MoveFile temp_path fallback_path])
    else (temp_path, []).

(** The XPath expressions tried for the print button, in order. *)
Definition selectors : list pystr :=
  [ str_of "//a[@onclick and contains(@onclick, 'Imprimer')]";
    str_of "//a[contains(@onclick, 'Imprimer()')]";
    str_of "//img[@src='/dataop/visuel/icones/16x16/Imprimer.gif']/..";
    str_of "//img[contains(@src, 'Imprimer.gif')]/..";
    str_of "//a[@title='Imprimer cette visualisation']";
    str_of "//img[contains(@src, 'print')]/..";
    str_of "//a[contains(@onclick, 'print')]";
    str_of "//a[contains(text(), 'Imprimer')]" ].

(** The loop over the selectors. [print_button] is assigned as soon as
    [find_element] returns; reading the attribute comes after, and when it
    raises the loop goes on with the button kept. *)
Fixpoint find_print_button
    (sels : list pystr) (print_button : option nat) : option nat :=
  match sels with
  | [] => print_button
  | selector :: rest =>
      match find_element br selector with
      | Some element =>
          if get_attribute_fails br element
          then find_print_button rest (Some element)
          else Some element
      | None => find_print_button rest print_button
      end
  end.

(** The default of [PDF_MESSAGE]. *)
Definition default_pdf_message : pystr :=
  str_of "Emploi du temps g" ++ [233%N] ++ str_of "n" ++ [233%N]
  ++ str_of "r" ++ [233%N] ++ str_of " automatiquement".

(** The part of [generate_schedule_pdf] that follows a successful
    [Page.printToPDF] with a ['data'] entry. It runs under the
    [except Exception] of the function, which is applied by the caller
    below: here an exception is returned as [Raise]. *)
Definition save_and_stamp
    (fs : gmap pystr file_data) (save_folder pdf_filename data : pystr)
  : outcome pystr * list fs_effect * log :=
  let expected_pdf_path := path_join save_folder pdf_filename in
  match b64decode br data with
  | Raise e => (Raise e, [], [])
  | Return pdf_data =>
      let temp_pdf_path :=
        replace (str_of ".pdf") (str_of "_temp.pdf") expected_pdf_path in
      let full_temp_path := abspath temp_pdf_path in
      match temp_write br with
      | FailsBeforeOpen => (Raise OtherException, [], [])
      | FailsWhileWriting written =>
          (Raise OtherException,
           [WriteFile full_temp_path (OtherData written)], [])
      | Saves =>
          let written := [WriteFile full_temp_path pdf_data] in
          let temp_final_path :=
            replace (str_of ".pdf") (str_of "_with_message.pdf")
                    expected_pdf_path in
          let pdf_message :=
            FileUtils.getenv_default env "PDF_MESSAGE" default_pdf_message in
          match add_message_to_pdf abspath (apply_effects fs written) env flt
                                   full_temp_path temp_final_path pdf_message
          with
          | (Raise e, effects) => (Raise e, written ++ effects, [])
          | (Return true, effects) =>
              if remove_fails br
              then (Raise OtherException, written ++ effects, [])
              else
                let '(final_path, moved) :=
                  safe_rename_pdf temp_final_path pdf_filename save_folder in
                (Return final_path,
                 written ++ effects ++ [RemoveFile full_temp_path] ++ moved,
                 [FinalPdfSavedTo final_path])
          | (Return false, effects) =>
              let '(final_path, moved) :=
                safe_rename_pdf full_temp_path pdf_filename save_folder in
              (Return final_path, written ++ effects ++ moved,
               [PdfSavedTo final_path])
          end
      end
  end.

(** [generate_schedule_pdf(driver, save_folder, target_date)]. The walk
    through the frames that comes first catches all its exceptions and
    only moves the browser: what the browser answers afterwards is in
    [br]. The result is the path of the document, or [None]. *)
Definition generate_schedule_pdf
    (fs : gmap pystr file_data) (clk : clock)
    (save_folder : pystr) (target_date : option pystr)
  : outcome (option pystr) * list fs_effect * log :=
  if makedirs_fails br then (Raise OtherException, [], [])
  else
    let pdf_filename :=
      FileUtils.create_pdf_filename week_label env clk target_date in
    match find_print_button selectors None with
    | None => (Return None, [], [PrintButtonNotFound])
    | Some print_button =>
        if execute_script_fails br || click_fails br print_button
        then (Return None, [], [PdfGenerationError])
        else
          match print_to_pdf br with
          | Raise _ => (Return None, [], [PdfGenerationError])
          | Return None => (Return None, [], [CdpNoData])
          | Return (Some data) =>
              match save_and_stamp fs save_folder pdf_filename data with
              | (Return final_path, effects, l) =>
                  (Return (Some final_path), effects, l)
              | (Raise _, effects, l) =>
                  (Return None, effects, l ++ [PdfGenerationError])
              end
          end
    end.

Variable sf : session_faults.

(** [login(driver, wait, username, password)]: the credentials are
    checked, then the sign-on flow is driven; every failure comes out as
    [BrowserNavigationError]. *)
Definition login (username password : option pystr) : outcome unit :=
  if negb (truthy username) || negb (truthy password)
  then Raise BrowserNavigationError
  else if login_fails sf then Raise BrowserNavigationError
  else Return tt.

(** [navigate_to_schedule(driver, wait)]. *)
Definition navigate_to_schedule : outcome unit :=
  if navigate_fails sf then Raise BrowserNavigationError else Return tt.

(** The [try] block of [main]. *)
Definition try_main
    (fs : gmap pystr file_data) (clk : clock)
    (username password nom_prenom promo target_date : option pystr)
    (save_folder : pystr)
  : outcome unit * list fs_effect * log :=
  if negb (truthy username) || negb (truthy password)
     || negb (truthy nom_prenom) || negb (truthy promo)
  then (Raise ScheduleGenerationError, [], [])
  else if ensure_directory_fails sf || chrome_options_fail sf
          || chrome_start_fails sf
  then (Raise ScheduleGenerationError, [], [])
  else
    match login username password with
    | Raise BrowserNavigationError => (Raise ScheduleGenerationError, [], [])
    | Raise e => (Raise e, [], [])
    | Return _ =>
        match navigate_to_schedule with
        | Raise BrowserNavigationError =>
            (Raise ScheduleGenerationError, [], [])
        | Raise e => (Raise e, [], [])
        | Return _ =>
            match generate_schedule_pdf fs clk save_folder target_date with
            | (Raise e, effects, l) =>
                match e with
                | ScheduleGenerationError | PDFProcessingError _ =>
                    (Raise ScheduleGenerationError, effects, l)
                | _ => (Raise e, effects, l)
                end
            | (Return pdf_path, effects, l) =>
                (Return tt, effects,
                 l ++ [PdfGenerated pdf_path; GenerationSucceeded])
            end
        end
    end.

(** Whether [driver] is set when the [finally] block of [main] runs: the
    four values were there and the browser was started. *)
Definition driver_started
    (username password nom_prenom promo : option pystr) : bool :=
  negb (negb (truthy username) || negb (truthy password)
        || negb (truthy nom_prenom) || negb (truthy promo))
  && negb (ensure_directory_fails sf || chrome_options_fail sf
           || chrome_start_fails sf).

(** The [finally] block of [main], entered with the status about to be
    returned. With a browser and in debug mode it waits for the operator:
    [except Exception] catches what [input()] and [driver.quit()] raise,
    but not [KeyboardInterrupt], which then replaces the return. *)
Definition finally_main (driver debug_mode : bool) (status : Z) : ending :=
  if driver && debug_mode then
    match input_in_main sf with
    | Interrupted => KeyboardInterrupt
    | Entered | InputError => Returns status
    end
  else Returns status.

(** [main(username, password, nom_prenom, promo, target_date, save_folder,
    debug_mode)]. *)
Definition main
    (fs : gmap pystr file_data) (clk : clock)
    (username password nom_prenom promo target_date : option pystr)
    (save_folder : pystr) (debug_mode : bool)
  : ending * list fs_effect * log :=
  let driver := driver_started username password nom_prenom promo in
  match try_main fs clk username password nom_prenom promo target_date
                 save_folder with
  | (Return _, effects, l) => (finally_main driver debug_mode 0, effects, l)
  | (Raise e, effects, l) =>
      (finally_main driver debug_mode 1, effects,
       l ++ [match e with
             | ScheduleGenerationError => GenerationError
             | PDFProcessingError _ => PdfError
             | BrowserNavigationError => NavigationError
             | _ => UnexpectedError
             end])
  end.

(** The block under [if __name__ == "__main__"]: the status with which
    the process exits. [get_target_date] is called outside any [try]: an
    exception there ends the interpreter with status 1. The value of
    [main] is not used. A [KeyboardInterrupt] that leaves [main], or the
    [input()] of the debug mode, is caught and the block runs to its end;
    any other exception of that [input()] is caught nowhere and ends the
    interpreter with status 1. [lower] is [str.lower]; [clk'] is the clock
    as read after [get_target_date] has returned. *)
Definition script
    (py_int : pystr -> option Z) (lower : pystr -> pystr)
    (fs : gmap pystr file_data) (clk clk' : clock)
  : Z * list fs_effect * log :=
  let username := env !! "IMT_USERNAME"%string in
  let password := env !! "IMT_PASSWORD"%string in
  let nom_prenom := env !! "NOM_PRENOM"%string in
  let promo := env !! "PROMO"%string in
  match get_target_date py_int env clk with
  | (Raise _, l) => (1, [], l)
  | (Return target_date, l) =>
      let save_folder :=
        FileUtils.getenv_default env "SAVE_FOLDER" (str_of "pdfs") in
      let debug_mode := debug_mode_of lower env in
      match main fs clk' username password nom_prenom promo (Some target_date)
                 save_folder debug_mode with
      | (KeyboardInterrupt, effects, l') =>
          (0, effects, l ++ l' ++ [StoppedByUser])
      | (Returns _, effects, l') =>
          if debug_mode then
            match input_in_script sf with
            | Entered => (0, effects, l ++ l' ++ [GenerationCompleted])
            | Interrupted =>
                (0, effects, l ++ l' ++ [GenerationCompleted; StoppedByUser])
            | InputError => (1, effects, l ++ l' ++ [GenerationCompleted])
            end
          else (0, effects, l ++ l' ++ [GenerationCompleted])
      end
  end.

End Pipeline.

(** ** The week's Monday, in the words of the specification

    Week 1 contains January 4th: its Monday is January 4th minus the weekday
    of January 4th; the Monday of week [week] is [7 * (week - 1)] days
    later. *)
Definition monday_of_week (year week : Z) : Z :=
  let jan4 := Datetime.ymd2ord year 1 4 in
  jan4 - Datetime.weekday jan4 + 7 * (week - 1).

(** ** The filename loop, character by character *)

(** Is [c] one of the forbidden characters? *)
Definition is_forbidden (c : N) : bool :=
  existsb (N.eqb c) FileUtils.forbidden_chars.

(** What the loop over [forbidden_chars] does to one character. *)
Definition clean_char (c : N) : N :=
  fold_left (fun x char => if N.eqb x char then FileUtils.hyphen else x)
            FileUtils.forbidden_chars c.

(** ** What a page becomes in the output of add_message_to_pdf

    The page with the overlay merged, or the page as it was when building
    or merging the overlay failed. *)
Definition stamp_page
    (abspath : pystr -> pystr) (fs : gmap pystr file_data)
    (env : gmap string pystr) (flt : pdf_faults) (message : pystr)
    (page_num : nat) (pg : page) : page :=
  if overlay_fails flt page_num || merge_fails flt page_num then pg
  else merge_page pg (overlay_for abspath fs env flt page_num pg message).

(** The message of the [else] branch that follows [add_message_to_pdf] in
    [generate_schedule_pdf]. *)
Definition is_PdfSavedTo (ev : log_event) : bool :=
  match ev with
  | PdfSavedTo _ => true
  | _ => false
  end.

(** ** A concrete run, for the examples *)

Module Sample.

(** Paths are kept as they are, and joined with a slash. *)
Definition abspath (p : pystr) : pystr := p.
Definition path_join (folder name : pystr) : pystr :=
  folder ++ str_of "/" ++ name.
Definition week_label (_ : pystr) : pystr := str_of "S38".

(** No variable holds an integer: none of the examples sets
    [TARGET_WEEK] or [WEEKS_OFFSET]. *)
Definition py_int (_ : pystr) : option Z := None.

(** The lower case of the capitals A to Z. *)
Definition lower (s : pystr) : pystr :=
  map (fun c => if ((65 <=? c) && (c <=? 90))%N then (c + 32)%N else c) s.

(** Wednesday, November 4th, 2026. *)
Definition clk : clock := fun _ => 739924.

(** An A4 landscape page with one line of text. *)
Definition a_page : page :=
  {| mediabox_width := 842; mediabox_height := 595;
     content := [DrawString 72 500 (str_of "Lundi")] |}.

Definition input : pystr := str_of "pdfs/edt_temp.pdf".
Definition output : pystr := str_of "pdfs/edt_with_message.pdf".

(** A disk holding a captured document of two pages. *)
Definition fs : gmap pystr file_data :=
  {[ input := PdfDocument [a_page; a_page] ]}.

Definition env : gmap string pystr :=
  {[ "IMT_USERNAME"%string := str_of "jdoe";
     "IMT_PASSWORD"%string := str_of "secret";
     "NOM_PRENOM"%string := str_of "DOE John";
     "PROMO"%string := str_of "FIPA3R";
     "TARGET_DATE"%string := str_of "20250915" ]}.

(** Nothing fails. *)
Definition no_faults : pdf_faults :=
  {| pages_fails := false;
     overlay_fails := fun _ => false;
     signature_fails := fun _ => false;
     merge_fails := fun _ => false;
     add_page_fails := fun _ => false;
     add_page_again_fails := fun _ => false;
     save := Saves;
     copy_fails := false |}.

(** Reading the page tree raises; the fallback copy works, or not. *)
Definition broken_pages (copy_fails : bool) : pdf_faults :=
  {| pages_fails := true;
     overlay_fails := fun _ => false;
     signature_fails := fun _ => false;
     merge_fails := fun _ => false;
     add_page_fails := fun _ => false;
     add_page_again_fails := fun _ => false;
     save := Saves;
     copy_fails := copy_fails |}.

(** A browser in which every step works: the first selector finds
    element 0 and the print command returns data. *)
Definition browser_ok : browser :=
  {| makedirs_fails := false;
     find_element := fun _ => Some O;
     get_attribute_fails := fun _ => false;
     execute_script_fails := false;
     click_fails := fun _ => false;
     print_to_pdf := Return (Some (str_of "JVBERi0x"));
     b64decode := fun _ => Return (PdfDocument [a_page]);
     temp_write := Saves;
     remove_fails := false;
     move_fails := fun _ => false |}.

(** No selector matches anything. *)
Definition browser_without_button : browser :=
  {| makedirs_fails := false;
     find_element := fun _ => None;
     get_attribute_fails := fun _ => false;
     execute_script_fails := false;
     click_fails := fun _ => false;
     print_to_pdf := Return (Some (str_of "JVBERi0x"));
     b64decode := fun _ => Return (PdfDocument [a_page]);
     temp_write := Saves;
     remove_fails := false;
     move_fails := fun _ => false |}.

(** The print command answers without a ['data'] entry. *)
Definition browser_without_data : browser :=
  {| makedirs_fails := false;
     find_element := fun _ => Some O;
     get_attribute_fails := fun _ => false;
     execute_script_fails := false;
     click_fails := fun _ => false;
     print_to_pdf := Return None;
     b64decode := fun _ => Return (PdfDocument [a_page]);
     temp_write := Saves;
     remove_fails := false;
     move_fails := fun _ => false |}.

Definition session_ok : session_faults :=
  {| ensure_directory_fails := false;
     chrome_options_fail := false;
     chrome_start_fails := false;
     login_fails := false;
     navigate_fails := false;
     input_in_main := Entered;
     input_in_script := Entered |}.

(** The single sign-on button is not found. *)
Definition session_login_fails : session_faults :=
  {| ensure_directory_fails := false;
     chrome_options_fail := false;
     chrome_start_fails := false;
     login_fails := true;
     navigate_fails := false;
     input_in_main := Entered;
     input_in_script := Entered |}.

End Sample.

(** ** get_week_date *)

(** [get_week_date(weeks_offset)]: the current date moved by that number of
    weeks, as [%Y%m%d]. Nothing is caught here. *)
Definition get_week_date (clk : clock) (weeks_offset : Z) : outcome pystr :=
  let today := clk O in
  delta <- Datetime.timedelta (7 * weeks_offset) ;;
  target_date <- Datetime.add today delta ;;
  Return (Datetime.strftime_Ymd target_date).

(** When moving the current date by [offset] weeks leaves the range of
    [datetime]: the [timedelta] is too large, or the sum is. *)
Definition offset_overflows (clk : clock) (offset : Z) : bool :=
  negb ((Z.abs (7 * offset) <=? 999999999)
        && (0 <? clk O + 7 * offset)
        && (clk O + 7 * offset <=? Datetime.MAXORDINAL)).

(** ** The resolution chain, in the words of the specification

    One target date from, in priority order: (a) an explicit week number,
    an ISO week of the current year, converted to the Monday of that week;
    (b) an explicit date; (c) a signed week offset from the current date;
    (d) the current date as default. Only the first input present is used;
    an invalid number for (a) or (c) is logged and the chain proceeds to
    the next input. Nothing below is taken from [get_target_date]. *)

(** The input that decides. *)
Inductive decision :=
| ByWeek (raw : pystr) (week : Z)
| ByDate (date : pystr)
| ByOffset (raw : pystr) (offset : Z)
| ByDefault.

(** An input of the chain: absent, present and usable, or present and not
    a number. *)
Inductive chain_input :=
| Absent
| Usable (d : decision)
| Invalid (warning : log_event).

(** The first usable input decides; an invalid number leaves its warning
    and the chain moves on; when the inputs are exhausted the default
    applies. *)
Fixpoint first_present (inputs : list chain_input) : decision * log :=
  match inputs with
  | [] => (ByDefault, [])
  | Absent :: rest => first_present rest
  | Usable d :: _ => (d, [])
  | Invalid warning :: rest =>
      let '(d, warnings) := first_present rest in (d, warning :: warnings)
  end.

(** A variable that is unset or empty is an absent input. *)
Definition numeric_input
    (py_int : pystr -> option Z) (raw : option pystr)
    (use : pystr -> Z -> decision) (warning : pystr -> log_event)
  : chain_input :=
  match raw with
  | Some (c :: s) =>
      match py_int (c :: s) with
      | Some n => Usable (use (c :: s) n)
      | None => Invalid (warning (c :: s))
      end
  | _ => Absent
  end.

Definition text_input
    (raw : option pystr) (use : pystr -> decision) : chain_input :=
  match raw with
  | Some (c :: s) => Usable (use (c :: s))
  | _ => Absent
  end.

Definition spec_decision
    (py_int : pystr -> option Z) (env : gmap string pystr) : decision * log :=
  first_present
    [ numeric_input py_int (env !! "TARGET_WEEK"%string)
                    ByWeek InvalidTargetWeek;
      text_input (env !! "TARGET_DATE"%string) ByDate;
      numeric_input py_int (env !! "WEEKS_OFFSET"%string)
                    ByOffset InvalidWeeksOffset ].

(** The target date an input stands for, as [YYYYMMDD]: the Monday of the
    ISO week of the current year, the date as given, the current date moved
    by whole weeks, the current date. *)
Definition spec_date (clk : clock) (d : decision) : pystr :=
  match d with
  | ByWeek _ week =>
      Datetime.strftime_Ymd (monday_of_week (Datetime.year_of (clk O)) week)
  | ByDate date => date
  | ByOffset _ offset => Datetime.strftime_Ymd (clk O + 7 * offset)
  | ByDefault => Datetime.strftime_Ymd (clk O)
  end.

(** The line that reports the input in use. *)
Definition report (d : decision) (date : pystr) : log_event :=
  match d with
  | ByWeek raw _ => UsingTargetWeek raw date
  | ByDate _ => UsingTargetDate date
  | ByOffset raw _ => UsingWeeksOffset raw date
  | ByDefault => UsingCurrentDate date
  end.

Definition spec_target_date
    (py_int : pystr -> option Z) (env : gmap string pystr) (clk : clock)
  : outcome pystr * log :=
  let '(d, warnings) := spec_decision py_int env in
  (Return (spec_date clk d), warnings ++ [report d (spec_date clk d)]).

(** Whether the date an input stands for is one [datetime] can hold. The
    specification says nothing of the other case. *)
Definition representable (clk : clock) (d : decision) : bool :=
  match d with
  | ByWeek _ week =>
      let year := Datetime.year_of (clk O) in
      (1 <=? year) && (year <=? 9999)
      && (0 <? monday_of_week year week)
      && (monday_of_week year week <=? Datetime.MAXORDINAL)
  | ByOffset _ offset => negb (offset_overflows clk offset)
  | ByDate _ | ByDefault => true
  end.

(** ** Concrete readers, for the examples *)

Module SampleDates.

(** The number written by a string of ASCII digits. *)
Fixpoint number_of (s : pystr) (acc : Z) : option Z :=
  match s with
  | [] => Some acc
  | c :: s' =>
      if ((48 <=? c) && (c <=? 57))%N
      then number_of s' (10 * acc + (Z.of_N c - 48))
      else None
  end.

(** A reader of integers: an optional minus sign, then digits. *)
Definition py_int (s : pystr) : option Z :=
  match s with
  | [] => None
  | 45%N :: (_ :: _) as digits => Z.opp <$> number_of digits 0
  | _ => number_of s 0
  end.

(** A reader of dates written as exactly eight digits, year, month, day. *)
Definition strptime (s : pystr) : option Z :=
  if (length s =? 8)%nat then
    match number_of (take 4 s) 0, number_of (take 2 (drop 4 s)) 0,
          number_of (drop 6 s) 0 with
    | Some y, Some m, Some d =>
        match Datetime.datetime y m d with
        | Return o => Some o
        | Raise _ => None
        end
    | _, _, _ => None
    end
  else None.

(** Only [WEEKS_OFFSET] is set. *)
Definition env_offset (raw : string) : gmap string pystr :=
  {[ "WEEKS_OFFSET"%string := str_of raw ]}.

End SampleDates.

(** ** More faults, for the examples *)

Module SampleFaults.

(** Building the overlay fails on every page. *)
Definition overlays_fail : pdf_faults :=
  {| pages_fails := false;
     overlay_fails := fun _ => true;
     signature_fails := fun _ => false;
     merge_fails := fun _ => false;
     add_page_fails := fun _ => false;
     add_page_again_fails := fun _ => false;
     save := Saves;
     copy_fails := false |}.

(** Writing the output stops after three bytes. *)
Definition save_stops : pdf_faults :=
  {| pages_fails := false;
     overlay_fails := fun _ => false;
     signature_fails := fun _ => false;
     merge_fails := fun _ => false;
     add_page_fails := fun _ => false;
     add_page_again_fails := fun _ => false;
     save := FailsWhileWriting [x25; x50; x44]%byte;
     copy_fails := false |}.

(** On the second page the overlay fails, and so does adding the page in
    the handler. *)
Definition second_page_lost : pdf_faults :=
  {| pages_fails := false;
     overlay_fails := fun i => (i =? 1)%nat;
     signature_fails := fun _ => false;
     merge_fails := fun _ => false;
     add_page_fails := fun _ => false;
     add_page_again_fails := fun i => (i =? 1)%nat;
     save := Saves;
     copy_fails := false |}.

(** The first selector finds element 7, whose attribute cannot be read;
    the others find nothing. *)
Definition browser_unreadable_button : browser :=
  {| makedirs_fails := false;
     find_element := fun s =>
       if bool_decide
            (s = str_of "//a[@onclick and contains(@onclick, 'Imprimer')]")
       then Some 7%nat else None;
     get_attribute_fails := fun _ => true;
     execute_script_fails := false;
     click_fails := fun _ => false;
     print_to_pdf := Return None;
     b64decode := fun _ => Raise ValueError;
     temp_write := Saves;
     remove_fails := false;
     move_fails := fun _ => false |}.

(** The first selector finds nothing; the second finds element 3, whose
    attribute cannot be read; the third finds element 5 and the fourth
    element 9, both readable; the others find nothing. *)
Definition browser_third_selector : browser :=
  {| makedirs_fails := false;
     find_element := fun s =>
       if bool_decide (s = str_of "//a[contains(@onclick, 'Imprimer()')]")
       then Some 3%nat
       else if bool_decide
                 (s = str_of
                        "//img[@src='/dataop/visuel/icones/16x16/Imprimer.gif']/..")
       then Some 5%nat
       else if bool_decide
                 (s = str_of "//img[contains(@src, 'Imprimer.gif')]/..")
       then Some 9%nat
       else None;
     get_attribute_fails := fun e => (e =? 3)%nat;
     execute_script_fails := false;
     click_fails := fun _ => false;
     print_to_pdf := Return None;
     b64decode := fun _ => Raise ValueError;
     temp_write := Saves;
     remove_fails := false;
     move_fails := fun _ => false |}.

(** The operator answers the two prompts of the debug mode with Ctrl+C. *)
Definition session_interrupted : session_faults :=
  {| ensure_directory_fails := false;
     chrome_options_fail := false;
     chrome_start_fails := false;
     login_fails := false;
     navigate_fails := false;
     input_in_main := Interrupted;
     input_in_script := Interrupted |}.

(** The standard input is at its end: [input()] raises [EOFError]. *)
Definition session_without_input : session_faults :=
  {| ensure_directory_fails := false;
     chrome_options_fail := false;
     chrome_start_fails := false;
     login_fails := false;
     navigate_fails := false;
     input_in_main := InputError;
     input_in_script := InputError |}.

(** The environment of the examples, with the debug mode on. *)
Definition env_debug : gmap string pystr :=
  <["DEBUG_MODE"%string := str_of "True"]> Sample.env.

End SampleFaults.

(** ** When the page loop loses a page

    Adding page [i] to the writer raises in the [except] block, which is
    reached because the overlay could not be built or because adding the
    page raised a first time. *)
Definition page_lost (flt : pdf_faults) (i : nat) : bool :=
  (overlay_fails flt i || add_page_fails flt i) && add_page_again_fails flt i.

(** Did the operator press Ctrl+C at a prompt? *)
Definition is_interrupted (o : input_outcome) : bool :=
  match o with
  | Interrupted => true
  | Entered | InputError => false
  end.

(** A page of the output against the page of the input it comes from: the
    same media box, and the same content with, possibly, more drawn after
    it. *)
Definition extends_page (pg pg' : page) : Prop :=
  mediabox_width pg' = mediabox_width pg
  /\ mediabox_height pg' = mediabox_height pg
  /\ exists added, content pg' = content pg ++ added.

(** * Properties *)

Example ord2ymd_today : Datetime.ord2ymd 739924 = (2026, 11, 4).
Proof. reflexivity. Qed.

Example strftime_Ymd_year_999 :
  Datetime.strftime_Ymd (Datetime.ymd2ord 999 9 16) = str_of "9990916".
Proof. reflexivity. Qed.

Example ord2ymd_leap_day :
  Datetime.ord2ymd (Datetime.ymd2ord 2024 2 29) = (2024, 2, 29)
  /\ Datetime.ord2ymd (Datetime.ymd2ord 2024 3 1) = (2024, 3, 1)
  /\ Datetime.ord2ymd (Datetime.ymd2ord 2024 12 31) = (2024, 12, 31)
  /\ Datetime.ord2ymd (Datetime.ymd2ord 2000 12 31) = (2000, 12, 31)
  /\ Datetime.ord2ymd (Datetime.ymd2ord 1900 3 1) = (1900, 3, 1)
  /\ Datetime.ord2ymd Datetime.MAXORDINAL = (9999, 12, 31)
  /\ Datetime.ord2ymd 1 = (1, 1, 1).
Proof. repeat split; reflexivity. Qed.

Example strftime_today :
  Datetime.strftime_Ymd 739924 = str_of "20261104".
Proof. reflexivity. Qed.

(** ** DateUtils *)

(** Quotient and remainder of a division by a positive constant, as linear
    facts. *)
Ltac euclid a b :=
  pose proof (Z.div_mod a b ltac:(lia));
  pose proof (Z.mod_pos_bound a b ltac:(lia)).

Lemma days_before_month_january year : Datetime.days_before_month year 1 = 0.
Proof. reflexivity. Qed.

Lemma ymd2ord_jan4 year :
  Datetime.ymd2ord year 1 4 = Datetime.days_before_year year + 4.
Proof. unfold Datetime.ymd2ord. rewrite days_before_month_january. lia. Qed.

Lemma datetime_jan4 year :
  1 <= year <= 9999 ->
  Datetime.datetime year 1 4 = Return (Datetime.ymd2ord year 1 4).
Proof.
  intros Hy. unfold Datetime.datetime, Datetime.MINYEAR, Datetime.MAXYEAR.
  replace (Datetime.days_in_month year 1) with 31 by reflexivity.
  destruct (Z.leb_spec 1 year); [|lia].
  destruct (Z.leb_spec year 9999); [|lia].
  reflexivity.
Qed.

Lemma timedelta_small days :
  Z.abs days <= 999999999 -> Datetime.timedelta days = Return days.
Proof.
  intros H. unfold Datetime.timedelta.
  destruct (Z.leb_spec (Z.abs days) 999999999); [reflexivity|lia].
Qed.

Lemma add_in_range d delta :
  0 < d + delta <= Datetime.MAXORDINAL ->
  Datetime.add d delta = Return (d + delta).
Proof.
  intros [H1 H2]. unfold Datetime.add.
  destruct (Z.ltb_spec 0 (d + delta)); [|lia].
  destruct (Z.leb_spec (d + delta) Datetime.MAXORDINAL); [reflexivity|lia].
Qed.

Lemma add_out_of_range d delta :
  Datetime.MAXORDINAL < d + delta -> Datetime.add d delta = Raise OverflowError.
Proof.
  intros H. unfold Datetime.add.
  destruct (Z.leb_spec (d + delta) Datetime.MAXORDINAL); [lia|].
  now rewrite andb_false_r.
Qed.

(** The Monday of the specification is a Monday, whatever the year and the
    week. *)
Lemma monday_of_week_isoweekday year week :
  Datetime.isoweekday (monday_of_week year week) = 1.
Proof.
  unfold Datetime.isoweekday, monday_of_week, Datetime.weekday.
  set (jan4 := Datetime.ymd2ord year 1 4).
  pose proof (Z.div_mod (jan4 + 6) 7 ltac:(lia)) as Hdm.
  replace (jan4 - (jan4 + 6) mod 7 + 7 * (week - 1))
    with (1 + ((jan4 + 6) / 7 + week - 2) * 7) by lia.
  rewrite Z.mod_add by lia. reflexivity.
Qed.

(** The dates the computation goes through stay in the range of
    [datetime], but for week 53 of year 9999. *)
Lemma monday_of_week_in_range year week :
  1 <= year <= 9999 -> 1 <= week <= 53 -> year < 9999 \/ week < 53 ->
  0 < Datetime.ymd2ord year 1 4 - Datetime.weekday (Datetime.ymd2ord year 1 4)
    <= Datetime.MAXORDINAL
  /\ 0 < monday_of_week year week <= Datetime.MAXORDINAL.
Proof.
  intros Hy Hw Hne. unfold monday_of_week. rewrite ymd2ord_jan4.
  unfold Datetime.weekday, Datetime.days_before_year, Datetime.MAXORDINAL.
  cbv zeta. set (y := year - 1).
  euclid y 4. euclid y 100. euclid y 400.
  set (jan4 := y * 365 + y / 4 - y / 100 + y / 400 + 4).
  euclid (jan4 + 6) 7.
  assert (4 <= jan4) by (unfold jan4; lia).
  destruct (Z.eq_dec year 9999) as [->|Hlt].
  - assert (jan4 = 3651698) by reflexivity. lia.
  - assert (jan4 <= 3651432) by (unfold jan4; lia). lia.
Qed.

(** C7, as the code has it: for the years [datetime] accepts (1 to 9999) and
    the weeks 1 to 53, week 53 of year 9999 apart,
    [get_monday_from_week_number] returns, formatted as [%Y%m%d], the date
    January 4th - weekday(January 4th) + 7 * (week - 1) days, without any
    warning, and that date is a Monday ([isoweekday] is 1). *)
Theorem get_monday_from_week_number_monday (clk : clock) (year week : Z) :
  1 <= year <= 9999 -> 1 <= week <= 53 -> year < 9999 \/ week < 53 ->
  get_monday_from_week_number clk year week
  = (Datetime.strftime_Ymd (monday_of_week year week), [])
  /\ Datetime.isoweekday (monday_of_week year week) = 1.
Proof.
  intros Hy Hw Hne. split; [|apply monday_of_week_isoweekday].
  destruct (monday_of_week_in_range year week Hy Hw Hne) as [Hm1 Hm].
  unfold get_monday_from_week_number.
  rewrite (datetime_jan4 year Hy). cbn [bind].
  assert (Hwd : 0 <= Datetime.weekday (Datetime.ymd2ord year 1 4) < 7)
    by (unfold Datetime.weekday; apply Z.mod_pos_bound; lia).
  rewrite timedelta_small by lia. cbn [bind].
  unfold Datetime.sub. rewrite add_in_range by lia. cbn [bind].
  rewrite timedelta_small by lia. cbn [bind].
  unfold monday_of_week in Hm |- *.
  rewrite add_in_range by lia. cbn [bind].
  reflexivity.
Qed.

(** The theorem at week 38 of 2025: Monday, September 15th. *)
Lemma get_monday_from_week_number_monday_witness :
  1 <= 2025 <= 9999 /\ 1 <= 38 <= 53 /\ (2025 < 9999 \/ 38 < 53)
  /\ get_monday_from_week_number (fun _ => 739924) 2025 38
     = (Datetime.strftime_Ymd (monday_of_week 2025 38), [])
  /\ Datetime.isoweekday (monday_of_week 2025 38) = 1.
Proof.
  split; [lia|]. split; [lia|]. split; [lia|].
  apply (get_monday_from_week_number_monday (fun _ => 739924) 2025 38); lia.
Defined.

Example monday_of_week_38_2025 :
  Datetime.strftime_Ymd (monday_of_week 2025 38) = str_of "20250915".
Proof. reflexivity. Qed.

(** C7 as stated fails at week 53 of year 9999: January 4th, 9999 is a
    Monday and 52 weeks later is January 3rd, 10000, past [datetime.max].
    The addition raises, the handler prints the warning and returns the
    current date: here Wednesday, November 4th, 2026, which is neither the
    date of the formula nor a Monday. *)
Lemma get_monday_from_week_number_week_53_of_9999 :
  1 <= 53 <= 53
  /\ get_monday_from_week_number (fun _ => 739924) 9999 53
     = (Datetime.strftime_Ymd 739924, [MondayError 53])
  /\ Datetime.strftime_Ymd 739924 = str_of "20261104"
  /\ Datetime.isoweekday 739924 = 3
  /\ fst (get_monday_from_week_number (fun _ => 739924) 9999 53)
     <> Datetime.strftime_Ymd (monday_of_week 9999 53).
Proof.
  split; [lia|]. split; [reflexivity|]. split; [reflexivity|].
  split; [reflexivity|]. vm_compute. discriminate.
Qed.

(** ** FileUtils *)

Section CleanFilename.
Import FileUtils.

Lemma replace_loop_pointwise (chars : pystr) (s : pystr) :
  fold_left (fun cleaned char => replace_char char hyphen cleaned) chars s
  = map (fun c => fold_left (fun x char => if N.eqb x char then hyphen else x)
                            chars c) s.
Proof.
  revert s. induction chars as [|ch chars IH]; intros s; cbn [fold_left].
  - now rewrite map_id.
  - rewrite IH. unfold replace_char. now rewrite map_map.
Qed.

Lemma clean_char_spec (c : N) :
  clean_char c = if is_forbidden c then hyphen else c.
Proof.
  unfold clean_char, is_forbidden, forbidden_chars, hyphen.
  cbn [fold_left existsb].
  repeat match goal with
         | |- context [N.eqb c ?k] =>
             destruct (N.eqb_spec c k) as [->|?]; cbn
         end; reflexivity.
Qed.

Lemma clean_char_not_forbidden (c : N) : is_forbidden (clean_char c) = false.
Proof.
  rewrite clean_char_spec. destruct (is_forbidden c) eqn:E; [reflexivity|exact E].
Qed.

Lemma clean_char_fixed (c : N) : is_forbidden c = false -> clean_char c = c.
Proof. intros H. now rewrite clean_char_spec, H. Qed.

Lemma lstrip_Forall (P : N -> Prop) (s : pystr) :
  Forall P s -> Forall P (lstrip s).
Proof.
  induction 1 as [|c s Hc Hs IH]; cbn; [constructor|].
  destruct (isspace c); [exact IH|now constructor].
Qed.

Lemma rstrip_Forall (P : N -> Prop) (s : pystr) :
  Forall P s -> Forall P (rstrip s).
Proof.
  induction 1 as [|c s Hc Hs IH]; cbn; [constructor|].
  destruct (rstrip s) as [|x r].
  - destruct (isspace c); repeat constructor; assumption.
  - now constructor.
Qed.

Lemma lstrip_head (s : pystr) :
  match lstrip s with
  | [] => True
  | c :: _ => isspace c = false
  end.
Proof.
  induction s as [|c s IH]; cbn; [exact I|].
  destruct (isspace c) eqn:E; [exact IH|exact E].
Qed.

Lemma rstrip_keeps_head (c : N) (s : pystr) :
  isspace c = false -> exists r, rstrip (c :: s) = c :: r.
Proof.
  intros E. cbn. destruct (rstrip s) as [|x r]; rewrite ?E; eauto.
Qed.

Lemma rstrip_idempotent (s : pystr) : rstrip (rstrip s) = rstrip s.
Proof.
  induction s as [|c s IH]; cbn; [reflexivity|].
  destruct (rstrip s) as [|x r] eqn:Er.
  - destruct (isspace c) eqn:E; cbn; [reflexivity|now rewrite E].
  - change (rstrip (c :: x :: r)) with
      (match rstrip (x :: r) with
       | [] => if isspace c then [] else [c]
       | r' => c :: r'
       end).
    now rewrite IH.
Qed.

Lemma strip_idempotent (s : pystr) : strip (strip s) = strip s.
Proof.
  unfold strip. pose proof (lstrip_head s) as Hh.
  destruct (lstrip s) as [|c t]; [reflexivity|].
  destruct (rstrip_keeps_head c t Hh) as [r Hr].
  rewrite Hr. cbn [lstrip]. rewrite Hh, <- Hr. apply rstrip_idempotent.
Qed.

Lemma clean_filename_as_map (s : pystr) :
  clean_filename_for_windows s = strip (map clean_char s).
Proof.
  unfold clean_filename_for_windows. now rewrite replace_loop_pointwise.
Qed.

Lemma clean_filename_free (s : pystr) :
  Forall (fun c => is_forbidden c = false) (clean_filename_for_windows s).
Proof.
  rewrite clean_filename_as_map. unfold strip.
  apply rstrip_Forall, lstrip_Forall, Forall_map, Forall_forall.
  intros c _. apply clean_char_not_forbidden.
Qed.

Lemma map_clean_char_fixed (s : pystr) :
  Forall (fun c => is_forbidden c = false) s -> map clean_char s = s.
Proof.
  induction 1 as [|c s Hc Hs IH]; cbn [map]; [reflexivity|].
  now rewrite IH, clean_char_fixed.
Qed.

End CleanFilename.

(** C9: [clean_filename_for_windows] is idempotent: on its own output it
    substitutes no character and trims nothing. *)
Theorem clean_filename_for_windows_idempotent (s : pystr) :
  FileUtils.clean_filename_for_windows (FileUtils.clean_filename_for_windows s)
  = FileUtils.clean_filename_for_windows s.
Proof.
  rewrite (clean_filename_as_map (FileUtils.clean_filename_for_windows s)).
  rewrite map_clean_char_fixed by apply clean_filename_free.
  rewrite clean_filename_as_map. apply strip_idempotent.
Qed.

(** ** add_message_to_pdf *)

Section PostProcessorFacts.

Variable abspath : pystr -> pystr.
Variable fs : gmap pystr file_data.
Variable env : gmap string pystr.
Variable flt : pdf_faults.

(** The overlay always draws something: merging it changes the page. *)
Lemma merge_page_overlay_changes (page_num : nat) (pg : page) (message : pystr) :
  merge_page pg (overlay_for abspath fs env flt page_num pg message) <> pg.
Proof.
  intros H. apply (f_equal (fun p => length (content p))) in H.
  cbn in H. rewrite !length_app in H. cbn in H. lia.
Qed.

(** The loop, when no page is lost in the [except] block. *)
Lemma process_pages_stamps (message : pystr) (pages : list page) :
  (forall i, add_page_again_fails flt i = false) ->
  forall (page_num : nat) (writer : list page),
  process_pages abspath fs env flt message page_num pages writer
  = Return (writer
            ++ imap (fun i => stamp_page abspath fs env flt message (page_num + i))
                    pages).
Proof.
  intros Hagain. induction pages as [|pg rest IH]; intros page_num writer.
  - cbn. now rewrite app_nil_r.
  - cbn [process_pages imap].
    assert (Hstep :
      process_page abspath fs env flt message page_num pg writer
      = Return (writer ++ [stamp_page abspath fs env flt message page_num pg])).
    { unfold process_page, add_page_in_handler, stamp_page.
      rewrite Hagain.
      destruct (overlay_fails flt page_num); cbn [orb]; [reflexivity|].
      destruct (add_page_fails flt page_num); reflexivity. }
    rewrite Hstep. cbn [bind]. rewrite IH, <- app_assoc. cbn [app].
    rewrite Nat.add_0_r. do 3 f_equal.
    apply imap_ext. intros i x _. unfold compose. f_equal. lia.
Qed.

(** When the body of the [try] raises something else than
    [PDFProcessingError], nothing has been written yet and the input file
    is there. *)
Lemma try_add_message_unexpected
    (input output message : pystr) (e : exn) (effects : list fs_effect) :
  try_add_message abspath fs env flt input output message = (Raise e, effects) ->
  is_PDFProcessingError e = false ->
  effects = [] /\ exists_file fs input = true.
Proof.
  unfold try_add_message. intros H He.
  destruct (exists_file fs input) eqn:Hex.
  2:{ rewrite orb_true_r in H. injection H as <- _. discriminate. }
  split; [|reflexivity].
  repeat match type of H with
         | (if ?b then _ else _) = _ => destruct b
         | match ?x with _ => _ end = _ => destruct x
         end;
    injection H as H1 H2; subst; try reflexivity; discriminate.
Qed.

End PostProcessorFacts.

(** C5: with an empty message, [add_message_to_pdf] raises
    [PDFProcessingError] and touches no file: nothing is written to the
    output path, neither a partial document nor a copy of the input. *)
Theorem add_message_to_pdf_empty_message
    (abspath : pystr -> pystr) (fs : gmap pystr file_data)
    (env : gmap string pystr) (flt : pdf_faults) (input output : pystr) :
  exists why,
    add_message_to_pdf abspath fs env flt input output []
    = (Raise (PDFProcessingError why), []).
Proof.
  unfold add_message_to_pdf, try_add_message.
  destruct (negb (truthy (Some input)) || negb (exists_file fs input));
    cbn [truthy negb orb is_PDFProcessingError]; eauto.
Qed.

(** C6, as the code has it: when something else than [PDFProcessingError]
    escapes the overlay, merge and save process, [add_message_to_pdf] tries
    to copy the input document to the output path and, whether the copy
    worked or raised, raises [PDFProcessingError]. When the copy works it is
    the only thing done to the files, and the output then holds exactly what
    the input holds. *)
Theorem add_message_to_pdf_unexpected_exception
    (abspath : pystr -> pystr) (fs : gmap pystr file_data)
    (env : gmap string pystr) (flt : pdf_faults)
    (input output message : pystr) (e : exn) (effects : list fs_effect) :
  try_add_message abspath fs env flt input output message = (Raise e, effects) ->
  is_PDFProcessingError e = false ->
  add_message_to_pdf abspath fs env flt input output message
  = (Raise (PDFProcessingError ProcessFailed),
     if copy_fails flt then [] else [CopyFile input output])
  /\ is_Some (fs !! input)
  /\ apply_effects fs [CopyFile input output] !! output = fs !! input.
Proof.
  intros Htry He.
  destruct (try_add_message_unexpected _ _ _ _ _ _ _ _ _ Htry He) as [-> Hex].
  assert (Hin : is_Some (fs !! input))
    by (unfold exists_file in Hex; now apply bool_decide_eq_true in Hex).
  split; [|split; [exact Hin|]].
  - unfold add_message_to_pdf. rewrite Htry, He. cbn [apply_effects fold_left app].
    rewrite Hex. destruct (copy_fails flt); reflexivity.
  - destruct Hin as [data Hdata]. cbn. rewrite Hdata.
    now rewrite lookup_insert_eq.
Qed.

(** The theorem when reading the page tree raises and the copy works. *)
Lemma add_message_to_pdf_unexpected_exception_witness :
  try_add_message Sample.abspath Sample.fs Sample.env (Sample.broken_pages false)
                  Sample.input Sample.output (str_of "Vu")
  = (Raise OtherException, [])
  /\ is_PDFProcessingError OtherException = false
  /\ add_message_to_pdf Sample.abspath Sample.fs Sample.env
                        (Sample.broken_pages false)
                        Sample.input Sample.output (str_of "Vu")
     = (Raise (PDFProcessingError ProcessFailed),
        [CopyFile Sample.input Sample.output])
  /\ is_Some (Sample.fs !! Sample.input)
  /\ apply_effects Sample.fs [CopyFile Sample.input Sample.output]
       !! Sample.output
     = Sample.fs !! Sample.input.
Proof.
  split; [reflexivity|]. split; [reflexivity|].
  apply (add_message_to_pdf_unexpected_exception
           Sample.abspath Sample.fs Sample.env (Sample.broken_pages false)
           Sample.input Sample.output (str_of "Vu") OtherException []);
    reflexivity.
Defined.

(** C6 as stated fails when the fallback copy itself raises: an unexpected
    exception has escaped the process, [PDFProcessingError] is raised, but
    nothing was copied and the output path holds no file. *)
Lemma add_message_to_pdf_copy_fails :
  try_add_message Sample.abspath Sample.fs Sample.env (Sample.broken_pages true)
                  Sample.input Sample.output (str_of "Vu")
  = (Raise OtherException, [])
  /\ add_message_to_pdf Sample.abspath Sample.fs Sample.env
                        (Sample.broken_pages true)
                        Sample.input Sample.output (str_of "Vu")
     = (Raise (PDFProcessingError ProcessFailed), [])
  /\ apply_effects Sample.fs [] !! Sample.output = None
  /\ apply_effects Sample.fs [] !! Sample.output <> Sample.fs !! Sample.input.
Proof.
  split; [reflexivity|]. split; [reflexivity|].
  split; [reflexivity|]. vm_compute. discriminate.
Qed.

(** C4, as the code has it: for an input document of N >= 1 pages and a
    message that is not blank, when the page tree can be read, no page is
    lost in the [except] block and the save works, [add_message_to_pdf]
    returns [True] and writes, as its only effect, a document of exactly N
    pages to the output path. The loop treats every page, not only the
    first: each page of the output is the input page with the overlay merged
    onto it, which differs from the input page, or, when building or merging
    its overlay failed, the input page itself. *)
Theorem add_message_to_pdf_stamps_every_page
    (abspath : pystr -> pystr) (fs : gmap pystr file_data)
    (env : gmap string pystr) (flt : pdf_faults)
    (input output message : pystr) (pages : list page) :
  input <> [] ->
  fs !! input = Some (PdfDocument pages) ->
  (1 <= length pages)%nat ->
  FileUtils.strip message <> [] ->
  pages_fails flt = false ->
  (forall i, add_page_again_fails flt i = false) ->
  save flt = Saves ->
  exists out,
    add_message_to_pdf abspath fs env flt input output message
    = (Return true, [WriteFile output (PdfDocument out)])
    /\ length out = length pages
    /\ forall (i : nat) (pg : page),
         pages !! i = Some pg ->
         out !! i = Some (stamp_page abspath fs env flt message i pg)
         /\ (overlay_fails flt i || merge_fails flt i = false ->
             out !! i <> Some pg)
         /\ (overlay_fails flt i || merge_fails flt i = true ->
             out !! i = Some pg).
Proof.
  intros Hin Hfs Hlen Hmsg Hpages Hagain Hsave.
  exists (imap (stamp_page abspath fs env flt message) pages).
  split; [|split].
  - unfold add_message_to_pdf, try_add_message.
    assert (Hex : exists_file fs input = true)
      by (apply bool_decide_eq_true; rewrite Hfs; eauto).
    rewrite Hex. destruct input as [|c input']; [congruence|].
    cbn [truthy negb orb].
    destruct message as [|m message']; [now cbn in Hmsg|].
    destruct (FileUtils.strip (m :: message')) as [|s stripped] eqn:Hstrip;
      [congruence|].
    cbn [truthy negb orb]. rewrite Hfs, Hpages.
    destruct pages as [|pg rest]; [cbn in Hlen; lia|].
    cbn [length Nat.eqb].
    rewrite (process_pages_stamps abspath fs env flt _ _ Hagain).
    rewrite Hsave. reflexivity.
  - apply length_imap.
  - intros i pg Hi. rewrite list_lookup_imap, Hi. cbn [fmap option_fmap option_map].
    split; [reflexivity|]. unfold stamp_page. split; intros ->.
    + intros [= H]. now apply merge_page_overlay_changes in H.
    + reflexivity.
Qed.

(** The theorem on the sample document of two pages, nothing failing. *)
Lemma add_message_to_pdf_stamps_every_page_witness :
  Sample.input <> []
  /\ Sample.fs !! Sample.input = Some (PdfDocument [Sample.a_page; Sample.a_page])
  /\ (1 <= length [Sample.a_page; Sample.a_page])%nat
  /\ FileUtils.strip (str_of "Vu") <> []
  /\ exists out,
       add_message_to_pdf Sample.abspath Sample.fs Sample.env Sample.no_faults
                          Sample.input Sample.output (str_of "Vu")
       = (Return true, [WriteFile Sample.output (PdfDocument out)])
       /\ length out = 2%nat.
Proof.
  split; [discriminate|]. split; [reflexivity|]. split; [cbn; lia|].
  split; [discriminate|].
  destruct (add_message_to_pdf_stamps_every_page
              Sample.abspath Sample.fs Sample.env Sample.no_faults
              Sample.input Sample.output (str_of "Vu")
              [Sample.a_page; Sample.a_page])
    as (out & Hrun & Hlen & _);
    [discriminate | reflexivity | cbn; lia | discriminate
    | reflexivity | reflexivity | reflexivity |].
  exists out. split; [exact Hrun | exact Hlen].
Defined.

(** C4 as stated fails on a document of two pages: with nothing failing,
    the second page of the output is not the second page of the input, it
    carries the message too. *)
Lemma add_message_to_pdf_stamps_page_2 :
  let stamped :=
    merge_page Sample.a_page
      {| mediabox_width := 842; mediabox_height := 595;
         content := [ SetFont (str_of "Helvetica-Bold") 12;
                      SetFillColor (str_of "blue");
                      DrawString 30 30 (str_of "Vu") ] |} in
  Sample.fs !! Sample.input = Some (PdfDocument [Sample.a_page; Sample.a_page])
  /\ add_message_to_pdf Sample.abspath Sample.fs Sample.env Sample.no_faults
                        Sample.input Sample.output (str_of "Vu")
     = (Return true, [WriteFile Sample.output (PdfDocument [stamped; stamped])])
  /\ [stamped; stamped] !! 1%nat <> [Sample.a_page; Sample.a_page] !! 1%nat.
Proof.
  split; [reflexivity|]. split; [reflexivity|]. cbn. discriminate.
Qed.

(** [add_message_to_pdf] has one [return] statement, [return True]. *)
Lemma add_message_to_pdf_never_False
    (abspath : pystr -> pystr) (fs : gmap pystr file_data)
    (env : gmap string pystr) (flt : pdf_faults)
    (input output message : pystr) :
  fst (add_message_to_pdf abspath fs env flt input output message)
  <> Return false.
Proof.
  assert (Htry :
    fst (try_add_message abspath fs env flt input output message)
    <> Return false).
  { unfold try_add_message.
    destruct (negb (truthy (Some input)) || negb (exists_file fs input));
      [cbn; discriminate|].
    destruct (negb (truthy (Some message))
              || negb (truthy (Some (FileUtils.strip message))));
      [cbn; discriminate|].
    destruct (fs !! input) as [[pages|data]|]; try (cbn; discriminate).
    destruct (pages_fails flt); [cbn; discriminate|].
    destruct (length pages =? 0)%nat; [cbn; discriminate|].
    destruct (process_pages abspath fs env flt message 0 pages []);
      [|cbn; discriminate].
    destruct (save flt); cbn; discriminate. }
  unfold add_message_to_pdf.
  destruct (try_add_message abspath fs env flt input output message)
    as [[v|e] effects]; [exact Htry|].
  destruct (is_PDFProcessingError e); cbn; discriminate.
Qed.

(** ** generate_schedule_pdf *)

(** C10: when [add_message_to_pdf] returns instead of raising, it returns
    [True]; hence [generate_schedule_pdf] never takes the [else] branch that
    renames the temporary document without message: the message of that
    branch is never in its log. *)
Theorem add_message_to_pdf_returns_True
    (abspath : pystr -> pystr) (path_join : pystr -> pystr -> pystr)
    (week_label : pystr -> pystr) (fs : gmap pystr file_data)
    (env : gmap string pystr) (br : browser) (flt : pdf_faults) (clk : clock)
    (input output message save_folder : pystr) (target_date : option pystr) :
  match fst (add_message_to_pdf abspath fs env flt input output message) with
  | Return v => v = true
  | Raise _ => True
  end
  /\ forallb (fun ev => negb (is_PdfSavedTo ev))
       (snd (generate_schedule_pdf abspath path_join week_label env br flt
                                   fs clk save_folder target_date))
     = true.
Proof.
  split.
  - pose proof (add_message_to_pdf_never_False abspath fs env flt
                  input output message) as H.
    destruct (fst (add_message_to_pdf abspath fs env flt input output message))
      as [[|]|e]; [reflexivity | congruence | exact I].
  - unfold generate_schedule_pdf.
    destruct (makedirs_fails br); [reflexivity|].
    destruct (find_print_button br selectors None); [|reflexivity].
    destruct (execute_script_fails br || click_fails br n); [reflexivity|].
    destruct (print_to_pdf br) as [[data|]|e]; [|reflexivity|reflexivity].
    unfold save_and_stamp.
    destruct (b64decode br data) as [pdf_data|e]; [|reflexivity].
    destruct (temp_write br); [|reflexivity|reflexivity].
    match goal with
    | |- context [add_message_to_pdf ?a ?f ?e ?fl ?i ?o ?m] =>
        pose proof (add_message_to_pdf_never_False a f e fl i o m) as H;
        destruct (add_message_to_pdf a f e fl i o m) as [[[|]|e'] effects]
    end; cbn [fst] in H; [|congruence|reflexivity].
    destruct (remove_fails br); [reflexivity|].
    destruct (safe_rename_pdf path_join br _ _ _). reflexivity.
Qed.

Lemma find_print_button_nothing (br : browser) (sels : list pystr)
    (print_button : option nat) :
  (forall selector, In selector sels -> find_element br selector = None) ->
  find_print_button br sels print_button = print_button.
Proof.
  induction sels as [|selector rest IH]; intros Hnone; cbn; [reflexivity|].
  rewrite (Hnone selector) by now left.
  apply IH. intros s Hs. apply Hnone. now right.
Qed.

(** C2, as the code has it: when the save folder is there and none of the
    selectors of the print button matches an element,
    [generate_schedule_pdf] prints the error and returns [None]: it raises
    nothing, and it writes no file. *)
Theorem generate_schedule_pdf_no_print_button
    (abspath : pystr -> pystr) (path_join : pystr -> pystr -> pystr)
    (week_label : pystr -> pystr) (fs : gmap pystr file_data)
    (env : gmap string pystr) (br : browser) (flt : pdf_faults) (clk : clock)
    (save_folder : pystr) (target_date : option pystr) :
  makedirs_fails br = false ->
  (forall selector, In selector selectors -> find_element br selector = None) ->
  generate_schedule_pdf abspath path_join week_label env br flt
                        fs clk save_folder target_date
  = (Return None, [], [PrintButtonNotFound]).
Proof.
  intros Hdir Hnone. unfold generate_schedule_pdf.
  rewrite Hdir, (find_print_button_nothing br selectors None Hnone).
  reflexivity.
Qed.

(** The theorem in the browser where no selector matches. *)
Lemma generate_schedule_pdf_no_print_button_witness :
  makedirs_fails Sample.browser_without_button = false
  /\ generate_schedule_pdf Sample.abspath Sample.path_join Sample.week_label
       Sample.env Sample.browser_without_button Sample.no_faults
       Sample.fs Sample.clk (str_of "pdfs") (Some (str_of "20250915"))
     = (Return None, [], [PrintButtonNotFound]).
Proof.
  split; [reflexivity|].
  apply (generate_schedule_pdf_no_print_button
           Sample.abspath Sample.path_join Sample.week_label Sample.fs
           Sample.env Sample.browser_without_button Sample.no_faults
           Sample.clk (str_of "pdfs") (Some (str_of "20250915")));
    [reflexivity | intros selector _; reflexivity].
Defined.

(** C2 as stated fails: in the browser where no selector matches, the
    capture does not raise [BrowserNavigationError], it returns [None]. *)
Lemma generate_schedule_pdf_no_print_button_no_exception :
  find_print_button Sample.browser_without_button selectors None = None
  /\ fst (fst (generate_schedule_pdf
                 Sample.abspath Sample.path_join Sample.week_label
                 Sample.env Sample.browser_without_button Sample.no_faults
                 Sample.fs Sample.clk (str_of "pdfs")
                 (Some (str_of "20250915"))))
     = Return None
  /\ fst (fst (generate_schedule_pdf
                 Sample.abspath Sample.path_join Sample.week_label
                 Sample.env Sample.browser_without_button Sample.no_faults
                 Sample.fs Sample.clk (str_of "pdfs")
                 (Some (str_of "20250915"))))
     <> Raise BrowserNavigationError.
Proof.
  split; [reflexivity|]. split; [reflexivity|]. cbn. discriminate.
Qed.

(** C3, as the code has it: when the print button was found and clicked and
    the answer of [Page.printToPDF] has no ['data'] entry,
    [generate_schedule_pdf] prints that the command failed and returns
    [None]: it raises nothing, and it writes no file. *)
Theorem generate_schedule_pdf_no_data
    (abspath : pystr -> pystr) (path_join : pystr -> pystr -> pystr)
    (week_label : pystr -> pystr) (fs : gmap pystr file_data)
    (env : gmap string pystr) (br : browser) (flt : pdf_faults) (clk : clock)
    (save_folder : pystr) (target_date : option pystr) (print_button : nat) :
  makedirs_fails br = false ->
  find_print_button br selectors None = Some print_button ->
  execute_script_fails br = false ->
  click_fails br print_button = false ->
  print_to_pdf br = Return None ->
  generate_schedule_pdf abspath path_join week_label env br flt
                        fs clk save_folder target_date
  = (Return None, [], [CdpNoData]).
Proof.
  intros Hdir Hbutton Hscript Hclick Hprint. unfold generate_schedule_pdf.
  rewrite Hdir, Hbutton, Hscript, Hclick, Hprint. reflexivity.
Qed.

(** The theorem in the browser whose print command returns no data. *)
Lemma generate_schedule_pdf_no_data_witness :
  makedirs_fails Sample.browser_without_data = false
  /\ find_print_button Sample.browser_without_data selectors None = Some O
  /\ execute_script_fails Sample.browser_without_data = false
  /\ click_fails Sample.browser_without_data O = false
  /\ print_to_pdf Sample.browser_without_data = Return None
  /\ generate_schedule_pdf Sample.abspath Sample.path_join Sample.week_label
       Sample.env Sample.browser_without_data Sample.no_faults
       Sample.fs Sample.clk (str_of "pdfs") (Some (str_of "20250915"))
     = (Return None, [], [CdpNoData]).
Proof.
  repeat (split; [reflexivity|]).
  apply (generate_schedule_pdf_no_data
           Sample.abspath Sample.path_join Sample.week_label Sample.fs
           Sample.env Sample.browser_without_data Sample.no_faults
           Sample.clk (str_of "pdfs") (Some (str_of "20250915")) O);
    reflexivity.
Defined.

(** C3 as stated fails: when the print command returns no data, the capture
    raises no [PDFProcessingError], nor anything else: it returns [None]. *)
Lemma generate_schedule_pdf_no_data_no_exception :
  print_to_pdf Sample.browser_without_data = Return None
  /\ fst (fst (generate_schedule_pdf
                 Sample.abspath Sample.path_join Sample.week_label
                 Sample.env Sample.browser_without_data Sample.no_faults
                 Sample.fs Sample.clk (str_of "pdfs")
                 (Some (str_of "20250915"))))
     = Return None
  /\ forall why,
       fst (fst (generate_schedule_pdf
                   Sample.abspath Sample.path_join Sample.week_label
                   Sample.env Sample.browser_without_data Sample.no_faults
                   Sample.fs Sample.clk (str_of "pdfs")
                   (Some (str_of "20250915"))))
       <> Raise (PDFProcessingError why).
Proof.
  split; [reflexivity|]. split; [reflexivity|]. intros why. cbn. discriminate.
Qed.

(** ** main and the script *)



(** C1 on two failing runs. When the sign-on fails, [main] returns 1, yet
    the process exits with status 0: the script does not use the value of
    [main]. When no print button is found, the capture returns [None],
    [main] reports a success and returns 0, and the process exits with
    status 0 as well. *)
Theorem script_exits_0_on_failure :
  (fst (fst (main Sample.abspath Sample.path_join Sample.week_label
              Sample.env Sample.browser_ok Sample.no_faults
              Sample.session_login_fails Sample.fs Sample.clk
              (Sample.env !! "IMT_USERNAME"%string)
              (Sample.env !! "IMT_PASSWORD"%string)
              (Sample.env !! "NOM_PRENOM"%string)
              (Sample.env !! "PROMO"%string)
              (Some (str_of "20250915")) (str_of "pdfs") false))
   = Returns 1
   /\ fst (fst (script Sample.abspath Sample.path_join Sample.week_label
                  Sample.env Sample.browser_ok Sample.no_faults
                  Sample.session_login_fails Sample.py_int Sample.lower
                  Sample.fs Sample.clk Sample.clk))
      = 0)
  /\ (main Sample.abspath Sample.path_join Sample.week_label
        Sample.env Sample.browser_without_button Sample.no_faults
        Sample.session_ok Sample.fs Sample.clk
        (Sample.env !! "IMT_USERNAME"%string)
        (Sample.env !! "IMT_PASSWORD"%string)
        (Sample.env !! "NOM_PRENOM"%string)
        (Sample.env !! "PROMO"%string)
        (Some (str_of "20250915")) (str_of "pdfs") false
      = (Returns 0, [],
         [PrintButtonNotFound; PdfGenerated None; GenerationSucceeded])
      /\ fst (fst (script Sample.abspath Sample.path_join Sample.week_label
                     Sample.env Sample.browser_without_button Sample.no_faults
                     Sample.session_ok Sample.py_int Sample.lower
                     Sample.fs Sample.clk Sample.clk))
         = 0).
Proof.
  split; split; reflexivity.
Qed.

(** On the run where everything works, [main] returns 0 and the stamped
    document is moved to its final name. *)
Example main_full_success :
  main Sample.abspath Sample.path_join Sample.week_label
       Sample.env Sample.browser_ok Sample.no_faults
       Sample.session_ok Sample.fs Sample.clk
       (Sample.env !! "IMT_USERNAME"%string)
       (Sample.env !! "IMT_PASSWORD"%string)
       (Sample.env !! "NOM_PRENOM"%string)
       (Sample.env !! "PROMO"%string)
       (Some (str_of "20250915")) (str_of "pdfs") false
  = (Returns 0,
     [ WriteFile (str_of "pdfs/DOE John " ++ [8211%N] ++ str_of " FIPA3R "
                  ++ [8211%N] ++ str_of " S38_temp.pdf")
                 (PdfDocument [Sample.a_page]);
       WriteFile (str_of "pdfs/DOE John " ++ [8211%N] ++ str_of " FIPA3R "
                  ++ [8211%N] ++ str_of " S38_with_message.pdf")
                 (PdfDocument
                    [stamp_page Sample.abspath Sample.fs Sample.env
                                Sample.no_faults default_pdf_message 0
                                Sample.a_page]);
       RemoveFile (str_of "pdfs/DOE John " ++ [8211%N] ++ str_of " FIPA3R "
                   ++ [8211%N] ++ str_of " S38_temp.pdf");
       MoveFile (str_of "pdfs/DOE John " ++ [8211%N] ++ str_of " FIPA3R "
                 ++ [8211%N] ++ str_of " S38_with_message.pdf")
                (str_of "pdfs/DOE John " ++ [8211%N] ++ str_of " FIPA3R "
                 ++ [8211%N] ++ str_of " S38.pdf") ],
     [ FinalPdfSavedTo (str_of "pdfs/DOE John " ++ [8211%N]
                        ++ str_of " FIPA3R " ++ [8211%N] ++ str_of " S38.pdf");
       PdfGenerated (Some (str_of "pdfs/DOE John " ++ [8211%N]
                           ++ str_of " FIPA3R " ++ [8211%N]
                           ++ str_of " S38.pdf"));
       GenerationSucceeded ]).
Proof. vm_compute. reflexivity. Qed.

(** ** The chain and the file name on examples *)

(** A week number that reads as an integer decides alone: the date and the
    offset are not looked at. *)
Lemma get_target_date_week_first
    (py_int : pystr -> option Z) (env : gmap string pystr) (clk : clock)
    (c : N) (w : pystr) (week_num : Z) :
  env !! "TARGET_WEEK"%string = Some (c :: w) ->
  py_int (c :: w) = Some week_num ->
  get_target_date py_int env clk = use_target_week clk (c :: w) week_num.
Proof.
  intros Hweek Hint. unfold get_target_date. now rewrite Hweek, Hint.
Qed.

(** A week number that is not an integer is logged, and the date is used. *)
Lemma get_target_date_invalid_week_then_date
    (py_int : pystr -> option Z) (env : gmap string pystr) (clk : clock)
    (c c' : N) (w d : pystr) :
  env !! "TARGET_WEEK"%string = Some (c :: w) ->
  py_int (c :: w) = None ->
  env !! "TARGET_DATE"%string = Some (c' :: d) ->
  get_target_date py_int env clk
  = (Return (c' :: d), [InvalidTargetWeek (c :: w); UsingTargetDate (c' :: d)]).
Proof.
  intros Hweek Hint Hdate. unfold get_target_date, from_target_date.
  now rewrite Hweek, Hint, Hdate.
Qed.

(** Identity "A B", program "P1", week label "S5". *)
Example create_pdf_filename_scenario :
  FileUtils.create_pdf_filename
    (fun _ => str_of "S5")
    {[ "NOM_PRENOM"%string := str_of "A B"; "PROMO"%string := str_of "P1" ]}
    Sample.clk (Some (str_of "20250127"))
  = str_of "A B " ++ [8211%N] ++ str_of " P1 " ++ [8211%N] ++ str_of " S5.pdf".
Proof. reflexivity. Qed.

(** Week 38 of 2018, a year whose January 4th is a Thursday: the Monday
    found is in ISO week 38. *)
Example week_38_of_2018 :
  Datetime.weekday (Datetime.ymd2ord 2018 1 4) = 3
  /\ fst (get_monday_from_week_number Sample.clk 2018 38) = str_of "20180917"
  /\ isocalendar_week (monday_of_week 2018 38) = 38.
Proof. repeat split; reflexivity. Qed.

(** ** Calendar facts behind the week label *)

(** The days before a year, from the digits of the year in the 400, 100, 4
    and 1 year cycles. *)
Lemma days_before_year_digits (a b c e : Z) :
  0 <= b <= 3 -> 0 <= c <= 24 -> 0 <= e <= 3 ->
  Datetime.days_before_year (400 * a + 100 * b + 4 * c + e + 1)
  = 146097 * a + 36524 * b + 1461 * c + 365 * e.
Proof.
  intros Hb Hc He. unfold Datetime.days_before_year. cbv zeta.
  replace (400 * a + 100 * b + 4 * c + e + 1 - 1)
    with (400 * a + 100 * b + 4 * c + e) by lia.
  set (y := 400 * a + 100 * b + 4 * c + e).
  assert (H4 : y / 4 = 100 * a + 25 * b + c)
    by (symmetry; apply (Z.div_unique y 4 _ e); unfold y; lia).
  assert (H100 : y / 100 = 4 * a + b)
    by (symmetry; apply (Z.div_unique y 100 _ (4 * c + e)); unfold y; lia).
  assert (H400 : y / 400 = a)
    by (symmetry; apply (Z.div_unique y 400 _ (100 * b + 4 * c + e));
        unfold y; lia).
  rewrite H4, H100, H400. unfold y. lia.
Qed.

(** A year has 365 or 366 days. *)
Lemma days_before_year_succ (year : Z) :
  365 <= Datetime.days_before_year (year + 1) - Datetime.days_before_year year
  <= 366.
Proof.
  unfold Datetime.days_before_year. cbv zeta.
  replace (year + 1 - 1) with (year - 1 + 1) by lia.
  set (y := year - 1).
  euclid y 4. euclid y 100. euclid y 400.
  euclid (y + 1) 4. euclid (y + 1) 100. euclid (y + 1) 400.
  lia.
Qed.

Lemma days_before_year_mono (year year' : Z) :
  year <= year' ->
  Datetime.days_before_year year <= Datetime.days_before_year year'.
Proof.
  intros H. unfold Datetime.days_before_year. cbv zeta.
  set (y := year - 1). set (y' := year' - 1).
  assert (y <= y') by (unfold y, y'; lia).
  euclid y 4. euclid y 100. euclid y 400.
  euclid y' 4. euclid y' 100. euclid y' 400.
  lia.
Qed.

(** The year [ord2ymd] finds is the year the day falls in. *)
Lemma year_of_bounds (d : Z) :
  1 <= d ->
  Datetime.days_before_year (Datetime.year_of d) < d
  <= Datetime.days_before_year (Datetime.year_of d + 1).
Proof.
  intros Hd. unfold Datetime.year_of, Datetime.ord2ymd. cbv zeta.
  set (n := d - 1).
  euclid n 146097. set (a := n / 146097) in *. set (r1 := n mod 146097) in *.
  euclid r1 36524. set (b := r1 / 36524) in *. set (r2 := r1 mod 36524) in *.
  euclid r2 1461. set (c := r2 / 1461) in *. set (r3 := r2 mod 1461) in *.
  euclid r3 365. set (e := r3 / 365) in *. set (r4 := r3 mod 365) in *.
  assert (Hn : d = n + 1) by (unfold n; lia).
  destruct (Z.eqb_spec e 4) as [He|He]; cbn [orb].
  - (* last day of a leap year *)
    cbn [fst].
    replace (a * 400 + 1 + b * 100 + c * 4 + e - 1)
      with (400 * a + 100 * b + 4 * c + 3 + 1) by lia.
    replace (400 * a + 100 * b + 4 * c + 3 + 1 + 1)
      with (400 * a + 100 * b + 4 * (c + 1) + 0 + 1) by lia.
    rewrite !days_before_year_digits by lia. lia.
  - destruct (Z.eqb_spec b 4) as [Hb|Hb].
    + (* last day of a 400 year cycle *)
      cbn [fst].
      replace (a * 400 + 1 + b * 100 + c * 4 + e - 1)
        with (400 * a + 100 * 3 + 4 * 24 + 3 + 1) by lia.
      replace (400 * a + 100 * 3 + 4 * 24 + 3 + 1 + 1)
        with (400 * (a + 1) + 100 * 0 + 4 * 0 + 0 + 1) by lia.
      rewrite !days_before_year_digits by lia. lia.
    + match goal with
      | |- context [if ?t then _ else _] => destruct t
      end; cbn [fst];
        replace (a * 400 + 1 + b * 100 + c * 4 + e)
          with (400 * a + 100 * b + 4 * c + e + 1) by lia;
        rewrite (days_before_year_digits a b c e) by lia;
        (destruct (Z.eq_dec e 3) as [He3|He3];
         [ destruct (Z.eq_dec c 24) as [Hc|Hc];
           [ destruct (Z.eq_dec b 3) as [Hb3|Hb3];
             [ replace (400 * a + 100 * b + 4 * c + e + 1 + 1)
                 with (400 * (a + 1) + 100 * 0 + 4 * 0 + 0 + 1) by lia
             | replace (400 * a + 100 * b + 4 * c + e + 1 + 1)
                 with (400 * a + 100 * (b + 1) + 4 * 0 + 0 + 1) by lia ]
           | replace (400 * a + 100 * b + 4 * c + e + 1 + 1)
               with (400 * a + 100 * b + 4 * (c + 1) + 0 + 1) by lia ]
         | replace (400 * a + 100 * b + 4 * c + e + 1 + 1)
             with (400 * a + 100 * b + 4 * c + (e + 1) + 1) by lia ]);
        rewrite days_before_year_digits by lia; lia.
Qed.

(** A day belongs to one year only. *)
Lemma year_of_unique (d year : Z) :
  1 <= d ->
  Datetime.days_before_year year < d <= Datetime.days_before_year (year + 1) ->
  Datetime.year_of d = year.
Proof.
  intros Hd Hy. pose proof (year_of_bounds d Hd) as Hb.
  destruct (Z.lt_trichotomy (Datetime.year_of d) year) as [Hlt|[Heq|Hgt]];
    [|exact Heq|].
  - pose proof (days_before_year_mono (Datetime.year_of d + 1) year ltac:(lia)).
    lia.
  - pose proof (days_before_year_mono (year + 1) (Datetime.year_of d) ltac:(lia)).
    lia.
Qed.

(** [isoweek1monday] is the Monday of week 1 of the specification. *)
Lemma isoweek1monday_monday_of_week (year : Z) :
  isoweek1monday year = monday_of_week year 1.
Proof.
  unfold isoweek1monday, monday_of_week, Datetime.weekday, Datetime.ymd2ord.
  cbv zeta. rewrite !days_before_month_january.
  set (dby := Datetime.days_before_year year).
  euclid (dby + 0 + 1 + 6) 7. euclid (dby + 0 + 4 + 6) 7.
  destruct (Z.ltb_spec 3 ((dby + 0 + 1 + 6) mod 7)); lia.
Qed.

(** The Monday of week 1 is between December 29th and January 4th. *)
Lemma monday_of_week_1_bounds (year : Z) :
  Datetime.days_before_year year - 2 <= monday_of_week year 1
  <= Datetime.days_before_year year + 4.
Proof.
  unfold monday_of_week, Datetime.weekday. rewrite ymd2ord_jan4. cbv zeta.
  euclid (Datetime.days_before_year year + 4 + 6) 7. lia.
Qed.

Lemma monday_of_week_shift (year week : Z) :
  monday_of_week year week = monday_of_week year 1 + 7 * (week - 1).
Proof. unfold monday_of_week. cbv zeta. lia. Qed.

Lemma monday_of_week_mod_7 (year week : Z) : monday_of_week year week mod 7 = 1.
Proof.
  unfold monday_of_week, Datetime.weekday. cbv zeta.
  set (jan4 := Datetime.ymd2ord year 1 4).
  pose proof (Z.div_mod (jan4 + 6) 7 ltac:(lia)) as Hdm.
  replace (jan4 - (jan4 + 6) mod 7 + 7 * (week - 1))
    with (1 + ((jan4 + 6) / 7 + week - 2) * 7) by lia.
  now rewrite Z.mod_add by lia.
Qed.

(** The ISO week of the Monday of week [week] is [week], for the weeks every
    year has. *)
Lemma isocalendar_week_monday_of_week (year week : Z) :
  1 <= year <= 9999 -> 1 <= week <= 52 ->
  isocalendar_week (monday_of_week year week) = week.
Proof.
  intros Hy Hw.
  destruct (monday_of_week_in_range year week Hy ltac:(lia) ltac:(lia))
    as [_ Hd].
  pose proof (monday_of_week_1_bounds year) as Hm1.
  pose proof (monday_of_week_shift year week) as Hshift.
  pose proof (days_before_year_succ year) as Hnext.
  set (d := monday_of_week year week) in *.
  destruct (Z.lt_ge_cases (Datetime.days_before_year year) d) as [Hin|Hbefore].
  - (* the Monday is in [year] *)
    assert (Hyear : Datetime.year_of d = year)
      by (apply year_of_unique; lia).
    unfold isocalendar_week. cbv zeta.
    rewrite Hyear, !isoweek1monday_monday_of_week.
    replace (d - monday_of_week year 1) with ((week - 1) * 7) by lia.
    rewrite Z.div_mul by lia.
    destruct (Z.ltb_spec (week - 1) 0); [lia|].
    destruct (Z.leb_spec 52 (week - 1)); [lia|]. cbn [andb]. lia.
  - (* the Monday of week 1, in the last days of the year before *)
    assert (Hw1 : week = 1) by lia.
    pose proof (days_before_year_succ (year - 1)) as Hprev.
    replace (year - 1 + 1) with year in Hprev by lia.
    assert (Hyear : Datetime.year_of d = year - 1).
    { apply year_of_unique; [lia|].
      replace (year - 1 + 1) with year by lia. lia. }
    pose proof (monday_of_week_1_bounds (year - 1)) as Hm0.
    pose proof (monday_of_week_mod_7 year 1) as Hmod1.
    pose proof (monday_of_week_mod_7 (year - 1) 1) as Hmod0.
    euclid (monday_of_week year 1) 7. euclid (monday_of_week (year - 1) 1) 7.
    unfold isocalendar_week. cbv zeta.
    rewrite Hyear. replace (year - 1 + 1) with year by lia.
    rewrite !isoweek1monday_monday_of_week.
    set (gap := d - monday_of_week (year - 1) 1).
    euclid gap 7.
    assert (Hgap : 52 <= gap / 7) by (unfold gap in *; lia).
    destruct (Z.ltb_spec (gap / 7) 0); [lia|].
    destruct (Z.leb_spec 52 (gap / 7)); [|lia].
    destruct (Z.leb_spec (monday_of_week year 1) d); [|lia].
    cbn [andb]. lia.
Qed.

(** [get_monday_from_week_number], case by case: the date of the formula
    when the year and that date are in the range of [datetime], the current
    date and a warning otherwise. *)
Lemma get_monday_from_week_number_cases (clk : clock) (year week : Z) :
  get_monday_from_week_number clk year week
  = if (1 <=? year) && (year <=? 9999)
       && (0 <? monday_of_week year week)
       && (monday_of_week year week <=? Datetime.MAXORDINAL)
    then (Datetime.strftime_Ymd (monday_of_week year week), [])
    else (Datetime.strftime_Ymd (clk O), [MondayError week]).
Proof.
  unfold get_monday_from_week_number.
  destruct (Z.leb_spec 1 year) as [Hy1|Hy1]; cbn [andb].
  2:{ unfold Datetime.datetime, Datetime.MINYEAR.
      destruct (Z.leb_spec 1 year); [lia|reflexivity]. }
  destruct (Z.leb_spec year 9999) as [Hy2|Hy2]; cbn [andb].
  2:{ unfold Datetime.datetime, Datetime.MINYEAR, Datetime.MAXYEAR.
      destruct (Z.leb_spec 1 year); [|lia].
      destruct (Z.leb_spec year 9999); [lia|reflexivity]. }
  rewrite (datetime_jan4 year ltac:(lia)). cbn [bind].
  destruct (monday_of_week_in_range year 1 ltac:(lia) ltac:(lia) ltac:(lia))
    as [Hm1 _].
  assert (Hwd : 0 <= Datetime.weekday (Datetime.ymd2ord year 1 4) < 7)
    by (unfold Datetime.weekday; apply Z.mod_pos_bound; lia).
  rewrite timedelta_small by lia. cbn [bind].
  unfold Datetime.sub. rewrite add_in_range by lia. cbn [bind].
  unfold monday_of_week. cbv zeta.
  set (m1 := Datetime.ymd2ord year 1 4
             + - Datetime.weekday (Datetime.ymd2ord year 1 4)) in *.
  replace (Datetime.ymd2ord year 1 4
           - Datetime.weekday (Datetime.ymd2ord year 1 4)) with m1
    by (unfold m1; lia).
  unfold Datetime.timedelta.
  destruct (Z.leb_spec (Z.abs (7 * (week - 1))) 999999999) as [Hsmall|Hbig];
    cbn [bind].
  - unfold Datetime.add. cbv zeta.
    destruct ((0 <? m1 + 7 * (week - 1))
              && (m1 + 7 * (week - 1) <=? Datetime.MAXORDINAL));
      reflexivity.
  - unfold Datetime.MAXORDINAL in *.
    destruct (Z.ltb_spec 0 (m1 + 7 * (week - 1))); cbn [andb]; [|reflexivity].
    destruct (Z.leb_spec (m1 + 7 * (week - 1)) 3652059); [lia|reflexivity].
Qed.

(** ** More on DateUtils *)

(** X1. [get_monday_from_week_number] never fails and checks neither the
    year nor the week: it returns the date of the formula whenever the year
    is between 1 and 9999 and that date is in the range of [datetime], for
    any week number, also zero, negative or above 53; in every other case
    it prints the warning and returns the current date. *)
Theorem get_monday_from_week_number_total (clk : clock) (year week : Z) :
  get_monday_from_week_number clk year week
  = if (1 <=? year) && (year <=? 9999)
       && (0 <? monday_of_week year week)
       && (monday_of_week year week <=? Datetime.MAXORDINAL)
    then (Datetime.strftime_Ymd (monday_of_week year week), [])
    else (Datetime.strftime_Ymd (clk O), [MondayError week]).
Proof. apply get_monday_from_week_number_cases. Qed.

(** X2. From a week number to its Monday and back: for a year between 1 and
    9999 and a week between 1 and 52, the week label computed from the date
    [get_monday_from_week_number] returns is ["S<week>"], provided
    [strptime] reads that date back. *)
Theorem week_label_of_monday
    (strptime_Ymd : pystr -> option Z) (clk : clock) (year week : Z) :
  1 <= year <= 9999 -> 1 <= week <= 52 ->
  strptime_Ymd (Datetime.strftime_Ymd (monday_of_week year week))
  = Some (monday_of_week year week) ->
  get_week_number_from_date strptime_Ymd
    (fst (get_monday_from_week_number clk year week))
  = str_of "S" ++ str_of_int week.
Proof.
  intros Hy Hw Hread.
  destruct (monday_of_week_in_range year week Hy ltac:(lia) ltac:(lia))
    as [_ [Hlo Hhi]].
  rewrite get_monday_from_week_number_cases.
  destruct (Z.leb_spec 1 year); [|lia].
  destruct (Z.leb_spec year 9999); [|lia].
  destruct (Z.ltb_spec 0 (monday_of_week year week)); [|lia].
  destruct (Z.leb_spec (monday_of_week year week) Datetime.MAXORDINAL); [|lia].
  cbn [andb fst]. unfold get_week_number_from_date. rewrite Hread.
  now rewrite isocalendar_week_monday_of_week.
Qed.

(** The theorem at week 38 of 2025. *)
Lemma week_label_of_monday_witness :
  1 <= 2025 <= 9999 /\ 1 <= 38 <= 52
  /\ SampleDates.strptime (Datetime.strftime_Ymd (monday_of_week 2025 38))
     = Some (monday_of_week 2025 38)
  /\ get_week_number_from_date SampleDates.strptime
       (fst (get_monday_from_week_number Sample.clk 2025 38))
     = str_of "S" ++ str_of_int 38.
Proof.
  split; [lia|]. split; [lia|]. split; [reflexivity|].
  apply (week_label_of_monday SampleDates.strptime Sample.clk 2025 38);
    [lia | lia | reflexivity].
Defined.

Lemma get_week_date_cases (clk : clock) (offset : Z) :
  get_week_date clk offset
  = if offset_overflows clk offset then Raise OverflowError
    else Return (Datetime.strftime_Ymd (clk O + 7 * offset)).
Proof.
  unfold get_week_date, offset_overflows, Datetime.timedelta, Datetime.add.
  cbv zeta.
  destruct (Z.abs (7 * offset) <=? 999999999); cbn [bind andb negb];
    [|reflexivity].
  destruct ((0 <? clk O + 7 * offset)
            && (clk O + 7 * offset <=? Datetime.MAXORDINAL)); reflexivity.
Qed.

Lemma use_weeks_offset_get_week_date (clk : clock) (raw : pystr) (offset : Z) :
  fst (use_weeks_offset clk raw offset) = get_week_date clk offset.
Proof.
  unfold use_weeks_offset, get_week_date. cbv zeta.
  destruct (Datetime.timedelta (7 * offset)) as [delta|e]; cbn [bind];
    [|reflexivity].
  destruct (Datetime.add (clk O) delta); reflexivity.
Qed.

Lemma use_weeks_offset_cases (clk : clock) (raw : pystr) (offset : Z) :
  use_weeks_offset clk raw offset
  = if offset_overflows clk offset then (Raise OverflowError, [])
    else (Return (Datetime.strftime_Ymd (clk O + 7 * offset)),
          [UsingWeeksOffset raw (Datetime.strftime_Ymd (clk O + 7 * offset))]).
Proof.
  unfold use_weeks_offset, offset_overflows, Datetime.timedelta, Datetime.add.
  cbv zeta.
  destruct (Z.abs (7 * offset) <=? 999999999); cbn [bind andb negb];
    [|reflexivity].
  destruct ((0 <? clk O + 7 * offset)
            && (clk O + 7 * offset <=? Datetime.MAXORDINAL)); reflexivity.
Qed.

Lemma use_target_week_cases (clk : clock) (raw : pystr) (week : Z) :
  use_target_week clk raw week
  = if representable clk (ByWeek raw week)
    then (Return (spec_date clk (ByWeek raw week)),
          [UsingTargetWeek raw (spec_date clk (ByWeek raw week))])
    else (Return (Datetime.strftime_Ymd (clk 1%nat)),
          [MondayError week;
           UsingTargetWeek raw (Datetime.strftime_Ymd (clk 1%nat))]).
Proof.
  unfold use_target_week. cbv zeta.
  rewrite get_monday_from_week_number_cases.
  cbn [representable spec_date].
  destruct ((1 <=? Datetime.year_of (clk O))
            && (Datetime.year_of (clk O) <=? 9999)
            && (0 <? monday_of_week (Datetime.year_of (clk O)) week)
            && (monday_of_week (Datetime.year_of (clk O)) week
                <=? Datetime.MAXORDINAL)); reflexivity.
Qed.

(** C8: [get_target_date] is the resolution chain of the specification over
    the week number ([TARGET_WEEK]), the date ([TARGET_DATE]) and the week
    offset ([WEEKS_OFFSET]), in this order, with the current date as
    default: the first input present decides and the later ones are not
    looked at; a week number or an offset that is not an integer leaves
    its warning in the log and passes to the next input. Wherever the date
    the deciding input stands for is a date of [datetime], the result and
    the log are those of the specification: the Monday of the ISO week of
    the current year, the date as given, the current date moved by whole
    weeks, the current date. Elsewhere, on which the specification is
    silent, the deciding input is still the same: a week number gives the
    current date with a warning, and an offset raises [OverflowError]. *)
Theorem get_target_date_priority_chain
    (py_int : pystr -> option Z) (env : gmap string pystr) (clk : clock) :
  get_target_date py_int env clk
  = let '(d, warnings) := spec_decision py_int env in
    if representable clk d then spec_target_date py_int env clk
    else match d with
         | ByWeek raw week =>
             let now := Datetime.strftime_Ymd (clk 1%nat) in
             (Return now,
              warnings ++ [MondayError week; UsingTargetWeek raw now])
         | _ => (Raise OverflowError, warnings)
         end.
Proof.
  unfold get_target_date, from_target_date, from_weeks_offset,
    spec_target_date, spec_decision, numeric_input, text_input,
    use_current_date.
  destruct (env !! "TARGET_WEEK"%string) as [[|c w]|];
    destruct (env !! "TARGET_DATE"%string) as [[|c' d]|];
    destruct (env !! "WEEKS_OFFSET"%string) as [[|c'' o]|];
    repeat match goal with
           | |- context [py_int ?s] => destruct (py_int s)
           end;
    cbn [first_present];
    rewrite ?use_target_week_cases, ?use_weeks_offset_cases;
    cbn [representable spec_date report app];
    repeat match goal with
           | |- context [offset_overflows ?k ?n] =>
               destruct (offset_overflows k n)
           end;
    cbn [negb];
    repeat match goal with
           | |- context [if ?b then _ else _] => destruct b
           end;
    reflexivity.
Qed.

(** The chain on five environments, on November 4th, 2026: week 45 gives
    its Monday; an unreadable week is logged and the date is used; an offset
    of one week; nothing set; and a week number too large for the calendar,
    which gives the current date with a warning. *)
Example get_target_date_examples :
  get_target_date SampleDates.py_int
    {[ "TARGET_WEEK"%string := str_of "45";
       "TARGET_DATE"%string := str_of "20250915";
       "WEEKS_OFFSET"%string := str_of "1" ]} Sample.clk
  = (Return (str_of "20261102"),
     [UsingTargetWeek (str_of "45") (str_of "20261102")])
  /\ get_target_date SampleDates.py_int
       {[ "TARGET_WEEK"%string := str_of "next";
          "TARGET_DATE"%string := str_of "20250915";
          "WEEKS_OFFSET"%string := str_of "1" ]} Sample.clk
     = (Return (str_of "20250915"),
        [InvalidTargetWeek (str_of "next");
         UsingTargetDate (str_of "20250915")])
  /\ get_target_date SampleDates.py_int (SampleDates.env_offset "1")
                     Sample.clk
     = (Return (str_of "20261111"),
        [UsingWeeksOffset (str_of "1") (str_of "20261111")])
  /\ get_target_date SampleDates.py_int ∅ Sample.clk
     = (Return (str_of "20261104"), [UsingCurrentDate (str_of "20261104")])
  /\ get_target_date SampleDates.py_int
       {[ "TARGET_WEEK"%string := str_of "999999" ]} Sample.clk
     = (Return (str_of "20261104"),
        [MondayError 999999;
         UsingTargetWeek (str_of "999999") (str_of "20261104")]).
Proof. repeat split; vm_compute; reflexivity. Qed.

(** When [get_target_date] raises: the week offset is the input in use, it
    reads as an integer and moving the current date by it overflows. *)
Lemma get_target_date_raises
    (py_int : pystr -> option Z) (env : gmap string pystr) (clk : clock)
    (e : exn) :
  fst (get_target_date py_int env clk) = Raise e ->
  e = OverflowError
  /\ truthy (env !! "TARGET_DATE"%string) = false
  /\ exists raw offset,
       env !! "WEEKS_OFFSET"%string = Some raw
       /\ py_int raw = Some offset
       /\ offset_overflows clk offset = true.
Proof.
  assert (Hoffset : forall l,
    fst (let '(r, l') := from_weeks_offset py_int
                           (env !! "WEEKS_OFFSET"%string) clk in
         (r, l ++ l')) = Raise e ->
    e = OverflowError
    /\ exists raw offset,
         env !! "WEEKS_OFFSET"%string = Some raw
         /\ py_int raw = Some offset
         /\ offset_overflows clk offset = true).
  { intros l. unfold from_weeks_offset.
    destruct (env !! "WEEKS_OFFSET"%string) as [[|c o]|];
      try (cbn; discriminate).
    destruct (py_int (c :: o)) as [offset|] eqn:Hint; [|cbn; discriminate].
    pose proof (use_weeks_offset_get_week_date clk (c :: o) offset) as Hsame.
    destruct (use_weeks_offset clk (c :: o) offset) as [r l'].
    cbn [fst] in *. rewrite Hsame, get_week_date_cases.
    destruct (offset_overflows clk offset) eqn:Hover; [|discriminate].
    intros [= <-]. split; [reflexivity|]. exists (c :: o), offset. auto. }
  assert (Hdate : forall l,
    fst (let '(r, l') := from_target_date py_int
                           (env !! "TARGET_DATE"%string)
                           (env !! "WEEKS_OFFSET"%string) clk in
         (r, l ++ l')) = Raise e ->
    e = OverflowError
    /\ truthy (env !! "TARGET_DATE"%string) = false
    /\ exists raw offset,
         env !! "WEEKS_OFFSET"%string = Some raw
         /\ py_int raw = Some offset
         /\ offset_overflows clk offset = true).
  { intros l. unfold from_target_date.
    destruct (env !! "TARGET_DATE"%string) as [[|c d]|];
      try (cbn; discriminate);
      intros H; destruct (Hoffset l H) as [He Hex]; auto. }
  unfold get_target_date.
  destruct (env !! "TARGET_WEEK"%string) as [[|c w]|].
  - intros H. apply (Hdate []).
    now destruct (from_target_date py_int _ _ clk).
  - destruct (py_int (c :: w)) as [week_num|].
    + unfold use_target_week.
      destruct (get_monday_from_week_number _ _ _). cbn. discriminate.
    + intros H. apply (Hdate [InvalidTargetWeek (c :: w)]).
      now destruct (from_target_date py_int _ _ clk).
  - intros H. apply (Hdate []).
    now destruct (from_target_date py_int _ _ clk).
Qed.

(** The converse: in that situation [get_target_date] raises. *)
Lemma get_target_date_overflows
    (py_int : pystr -> option Z) (env : gmap string pystr) (clk : clock)
    (raw : pystr) (offset : Z) :
  (forall w week,
     env !! "TARGET_WEEK"%string = Some w -> w <> [] ->
     py_int w <> Some week) ->
  truthy (env !! "TARGET_DATE"%string) = false ->
  env !! "WEEKS_OFFSET"%string = Some raw -> raw <> [] ->
  py_int raw = Some offset ->
  offset_overflows clk offset = true ->
  fst (get_target_date py_int env clk) = Raise OverflowError.
Proof.
  intros Hweek Hdate Hraw Hne Hint Hover.
  assert (Hoffset :
    fst (from_target_date py_int (env !! "TARGET_DATE"%string)
                          (env !! "WEEKS_OFFSET"%string) clk)
    = Raise OverflowError).
  { unfold from_target_date, from_weeks_offset. rewrite Hraw.
    destruct (env !! "TARGET_DATE"%string) as [[|c d]|];
      try discriminate;
      (destruct raw as [|c' o]; [congruence|]; rewrite Hint;
       pose proof (use_weeks_offset_get_week_date clk (c' :: o) offset)
         as Hsame;
       rewrite get_week_date_cases, Hover in Hsame; exact Hsame). }
  unfold get_target_date.
  destruct (env !! "TARGET_WEEK"%string) as [[|c w]|] eqn:Hw;
    try exact Hoffset.
  destruct (py_int (c :: w)) as [week|] eqn:Hpw.
  - exfalso. apply (Hweek (c :: w) week); [reflexivity|discriminate|exact Hpw].
  - destruct (from_target_date py_int _ _ clk). exact Hoffset.
Qed.

(** When [TARGET_WEEK] reads as an integer, [get_target_date] returns. *)
Lemma get_target_date_week_returns
    (py_int : pystr -> option Z) (env : gmap string pystr) (clk : clock)
    (w : pystr) (week : Z) :
  env !! "TARGET_WEEK"%string = Some w -> w <> [] ->
  py_int w = Some week ->
  exists date, fst (get_target_date py_int env clk) = Return date.
Proof.
  intros Hw Hne Hint. unfold get_target_date. rewrite Hw.
  destruct w as [|c w]; [congruence|]. rewrite Hint.
  unfold use_target_week.
  destruct (get_monday_from_week_number _ _ _) as [date l]. eauto.
Qed.

(** X3. [get_target_date] raises in one situation, and always in that
    one: [TARGET_WEEK] is not an integer (unset, empty or unreadable),
    [TARGET_DATE] is not set, [WEEKS_OFFSET] reads as an integer and the
    current date moved by that many weeks leaves the range of [datetime];
    the exception is then [OverflowError], which the [except ValueError]
    clause lets through. *)
Theorem get_target_date_raises_only_on_overflow
    (py_int : pystr -> option Z) (env : gmap string pystr) (clk : clock)
    (e : exn) :
  fst (get_target_date py_int env clk) = Raise e
  <-> e = OverflowError
      /\ (forall w week,
            env !! "TARGET_WEEK"%string = Some w -> w <> [] ->
            py_int w <> Some week)
      /\ truthy (env !! "TARGET_DATE"%string) = false
      /\ exists raw offset,
           env !! "WEEKS_OFFSET"%string = Some raw
           /\ raw <> []
           /\ py_int raw = Some offset
           /\ offset_overflows clk offset = true.
Proof.
  split.
  - intros Hraise.
    destruct (get_target_date_raises py_int env clk e Hraise)
      as (-> & Hdate & raw & offset & Hraw & Hint & Hover).
    split; [reflexivity|]. split; [|split; [exact Hdate|]].
    + intros w week Hw Hne Hweek.
      destruct (get_target_date_week_returns py_int env clk w week Hw Hne
                  Hweek) as [date Hreturn].
      congruence.
    + exists raw, offset. repeat split; try assumption.
      intros ->. unfold get_target_date, from_target_date, from_weeks_offset
        in Hraise.
      rewrite Hraw in Hraise.
      destruct (env !! "TARGET_WEEK"%string) as [[|c w]|];
        [|destruct (py_int (c :: w));
          [unfold use_target_week in Hraise;
           destruct (get_monday_from_week_number _ _ _); discriminate|]|];
        destruct (env !! "TARGET_DATE"%string) as [[|c' d]|];
        discriminate.
  - intros (-> & Hweek & Hdate & raw & offset & Hraw & Hne & Hint & Hover).
    now apply (get_target_date_overflows py_int env clk raw offset).
Qed.

(** The theorem for an offset of 999999 weeks. *)
Lemma get_target_date_raises_only_on_overflow_witness :
  fst (get_target_date SampleDates.py_int (SampleDates.env_offset "999999")
                       Sample.clk)
  = Raise OverflowError
  /\ OverflowError = OverflowError
  /\ (forall w week,
        SampleDates.env_offset "999999" !! "TARGET_WEEK"%string = Some w ->
        w <> [] -> SampleDates.py_int w <> Some week)
  /\ truthy (SampleDates.env_offset "999999" !! "TARGET_DATE"%string) = false
  /\ exists raw offset,
       SampleDates.env_offset "999999" !! "WEEKS_OFFSET"%string = Some raw
       /\ raw <> []
       /\ SampleDates.py_int raw = Some offset
       /\ offset_overflows Sample.clk offset = true.
Proof.
  split; [reflexivity|].
  apply (proj1 (get_target_date_raises_only_on_overflow
                  SampleDates.py_int (SampleDates.env_offset "999999")
                  Sample.clk OverflowError)).
  reflexivity.
Defined.

(** X4. [get_week_date] moves the current date by whole weeks: it raises
    [OverflowError] when the result leaves the range of [datetime], and
    otherwise returns the date [7 * weeks_offset] days from today, which
    falls on the same day of the week as today. *)
Theorem get_week_date_same_weekday (clk : clock) (weeks_offset : Z) :
  get_week_date clk weeks_offset
  = (if offset_overflows clk weeks_offset then Raise OverflowError
     else Return (Datetime.strftime_Ymd (clk O + 7 * weeks_offset)))
  /\ Datetime.isoweekday (clk O + 7 * weeks_offset)
     = Datetime.isoweekday (clk O).
Proof.
  split; [apply get_week_date_cases|].
  unfold Datetime.isoweekday.
  replace (clk O + 7 * weeks_offset) with (clk O + weeks_offset * 7) by lia.
  now rewrite Z.mod_add by lia.
Qed.

(** X5. The offset step of [get_target_date] and [get_week_date] agree:
    when neither [TARGET_WEEK] nor [TARGET_DATE] is set and [WEEKS_OFFSET]
    reads as the integer [offset], [get_target_date] returns, or raises,
    what [get_week_date(offset)] does. *)
Theorem get_target_date_offset_is_get_week_date
    (py_int : pystr -> option Z) (env : gmap string pystr) (clk : clock)
    (raw : pystr) (offset : Z) :
  truthy (env !! "TARGET_WEEK"%string) = false ->
  truthy (env !! "TARGET_DATE"%string) = false ->
  env !! "WEEKS_OFFSET"%string = Some raw ->
  py_int raw = Some offset ->
  raw <> [] ->
  fst (get_target_date py_int env clk) = get_week_date clk offset.
Proof.
  intros Hweek Hdate Hraw Hint Hne.
  unfold get_target_date, from_target_date, from_weeks_offset.
  rewrite Hraw. destruct raw as [|c o]; [congruence|]. rewrite Hint.
  destruct (env !! "TARGET_WEEK"%string) as [[|? ?]|]; try discriminate;
    destruct (env !! "TARGET_DATE"%string) as [[|? ?]|]; try discriminate;
    apply use_weeks_offset_get_week_date.
Qed.

(** The theorem for an offset of two weeks. *)
Lemma get_target_date_offset_is_get_week_date_witness :
  truthy (SampleDates.env_offset "2" !! "TARGET_WEEK"%string) = false
  /\ truthy (SampleDates.env_offset "2" !! "TARGET_DATE"%string) = false
  /\ SampleDates.env_offset "2" !! "WEEKS_OFFSET"%string = Some (str_of "2")
  /\ SampleDates.py_int (str_of "2") = Some 2
  /\ str_of "2" <> []
  /\ fst (get_target_date SampleDates.py_int (SampleDates.env_offset "2")
                          Sample.clk)
     = get_week_date Sample.clk 2.
Proof.
  repeat (split; [reflexivity || discriminate|]).
  apply (get_target_date_offset_is_get_week_date
           SampleDates.py_int (SampleDates.env_offset "2") Sample.clk
           (str_of "2") 2); reflexivity || discriminate.
Defined.

(** ** More on FileUtils *)

Lemma is_forbidden_In (c : N) :
  is_forbidden c = true <-> In c FileUtils.forbidden_chars.
Proof.
  unfold is_forbidden. rewrite existsb_exists. split.
  - intros (x & Hx & Heq). apply N.eqb_eq in Heq. now subst.
  - intros Hc. exists c. split; [exact Hc|apply N.eqb_refl].
Qed.

Lemma rstrip_last (s : pystr) :
  from_option FileUtils.isspace false (last (FileUtils.rstrip s)) = false.
Proof.
  induction s as [|c s IH]; cbn; [reflexivity|].
  destruct (FileUtils.rstrip s) as [|x r].
  - destruct (FileUtils.isspace c) eqn:E; cbn; [reflexivity|exact E].
  - exact IH.
Qed.

Lemma rstrip_trimmed (s : pystr) :
  from_option FileUtils.isspace false (last s) = false ->
  FileUtils.rstrip s = s.
Proof.
  induction s as [|c s IH]; cbn; [reflexivity|].
  destruct s as [|x s'].
  - cbn. now intros ->.
  - intros H. rewrite (IH H). reflexivity.
Qed.

Lemma lstrip_trimmed (s : pystr) :
  from_option FileUtils.isspace false (head s) = false ->
  FileUtils.lstrip s = s.
Proof. destruct s as [|c s]; cbn; [reflexivity|now intros ->]. Qed.

Lemma strip_head (s : pystr) :
  from_option FileUtils.isspace false (head (FileUtils.strip s)) = false.
Proof.
  unfold FileUtils.strip. pose proof (lstrip_head s) as Hh.
  destruct (FileUtils.lstrip s) as [|c t]; [reflexivity|].
  destruct (rstrip_keeps_head c t Hh) as [r ->]. exact Hh.
Qed.

Lemma lstrip_length (s : pystr) : (length (FileUtils.lstrip s) <= length s)%nat.
Proof.
  induction s as [|c s IH]; cbn; [lia|].
  destruct (FileUtils.isspace c); cbn; lia.
Qed.

Lemma rstrip_length (s : pystr) : (length (FileUtils.rstrip s) <= length s)%nat.
Proof.
  induction s as [|c s IH]; cbn; [lia|].
  destruct (FileUtils.rstrip s) as [|x r]; [|cbn in *; lia].
  destruct (FileUtils.isspace c); cbn; lia.
Qed.

Lemma lstrip_app_solid (u v : pystr) (c : N) :
  FileUtils.isspace c = false ->
  FileUtils.lstrip (u ++ c :: v) = FileUtils.lstrip u ++ c :: v.
Proof.
  intros Hc. induction u as [|x u IH]; cbn; [now rewrite Hc|].
  destruct (FileUtils.isspace x); [exact IH|reflexivity].
Qed.

(** X6. The name [clean_filename_for_windows] returns contains none of the
    nine forbidden characters. *)
Theorem clean_filename_for_windows_no_forbidden (filename : pystr) :
  Forall (fun c => ~ In c FileUtils.forbidden_chars)
         (FileUtils.clean_filename_for_windows filename).
Proof.
  eapply Forall_impl; [apply clean_filename_free|].
  intros c Hc Hin. apply is_forbidden_In in Hin. congruence.
Qed.

(** X7. The name [clean_filename_for_windows] returns neither starts nor
    ends with a white space character. *)
Theorem clean_filename_for_windows_trimmed (filename : pystr) :
  from_option FileUtils.isspace false
    (head (FileUtils.clean_filename_for_windows filename)) = false
  /\ from_option FileUtils.isspace false
       (last (FileUtils.clean_filename_for_windows filename)) = false.
Proof.
  rewrite clean_filename_as_map. split; [apply strip_head|].
  unfold FileUtils.strip. apply rstrip_last.
Qed.

(** X8. The names [clean_filename_for_windows] leaves unchanged are exactly
    those without forbidden character and without white space at either
    end. *)
Theorem clean_filename_for_windows_fixed_points (filename : pystr) :
  FileUtils.clean_filename_for_windows filename = filename
  <-> Forall (fun c => ~ In c FileUtils.forbidden_chars) filename
      /\ from_option FileUtils.isspace false (head filename) = false
      /\ from_option FileUtils.isspace false (last filename) = false.
Proof.
  split.
  - intros Hfix. rewrite <- Hfix. split.
    + eapply Forall_impl; [apply clean_filename_free|].
      intros c Hc Hin. apply is_forbidden_In in Hin. congruence.
    + rewrite clean_filename_as_map. split; [apply strip_head|].
      unfold FileUtils.strip. apply rstrip_last.
  - intros (Hfree & Hhead & Hlast).
    rewrite clean_filename_as_map, map_clean_char_fixed.
    + unfold FileUtils.strip. rewrite (lstrip_trimmed _ Hhead).
      now apply rstrip_trimmed.
    + eapply Forall_impl; [exact Hfree|].
      intros c Hc. destruct (is_forbidden c) eqn:E; [|reflexivity].
      apply is_forbidden_In in E. contradiction.
Qed.

(** X9. [clean_filename_for_windows] never makes a name longer. *)
Theorem clean_filename_for_windows_length (filename : pystr) :
  (length (FileUtils.clean_filename_for_windows filename)
   <= length filename)%nat.
Proof.
  rewrite clean_filename_as_map. unfold FileUtils.strip.
  etransitivity; [apply rstrip_length|].
  etransitivity; [apply lstrip_length|].
  now rewrite length_map.
Qed.

(** X10. Whatever the identity, the programme and the week label, the name
    [create_pdf_filename] returns ends with [.pdf]: the characters of the
    extension are not forbidden and the final trim stops at them. *)
Theorem create_pdf_filename_extension
    (week_label : pystr -> pystr) (env : gmap string pystr) (clk : clock)
    (target_date : option pystr) :
  exists stem,
    FileUtils.create_pdf_filename week_label env clk target_date
    = stem ++ str_of ".pdf".
Proof.
  unfold FileUtils.create_pdf_filename. cbv zeta.
  set (nom_prenom := FileUtils.getenv_default env "NOM_PRENOM" _).
  set (promo := FileUtils.getenv_default env "PROMO" _).
  set (semaine := if truthy target_date then _ else _).
  set (sep := str_of " " ++ [FileUtils.en_dash] ++ str_of " ").
  rewrite clean_filename_as_map, !app_assoc, map_app.
  set (body := map clean_char _).
  change (map clean_char (str_of ".pdf")) with (46%N :: str_of "pdf").
  exists (FileUtils.lstrip body).
  unfold FileUtils.strip.
  rewrite lstrip_app_solid by reflexivity.
  apply rstrip_trimmed.
  rewrite last_app. reflexivity.
Qed.

(** X11. [safe_rename_pdf] never loses the document: whichever of the two
    moves work or fail, the path it returns holds, afterwards, what the
    temporary path held, and unless that path is the temporary path itself
    the temporary file is gone. *)
Theorem safe_rename_pdf_keeps_document
    (path_join : pystr -> pystr -> pystr) (br : browser)
    (fs : gmap pystr file_data)
    (temp_path target_filename save_folder : pystr) (data : file_data) :
  fs !! temp_path = Some data ->
  let r := safe_rename_pdf path_join br temp_path target_filename save_folder in
  apply_effects fs (snd r) !! fst r = Some data
  /\ (fst r = temp_path \/ apply_effects fs (snd r) !! temp_path = None).
Proof.
  intros Hfs. unfold safe_rename_pdf. cbv zeta.
  set (final_path := path_join save_folder target_filename).
  set (fallback_path := path_join save_folder _).
  destruct (move_fails br final_path); cbn [negb];
    [destruct (move_fails br fallback_path); cbn [negb]|];
    cbn [fst snd apply_effects fold_left apply_effect]; rewrite ?Hfs.
  - split; [reflexivity|now left].
  - split; [apply lookup_insert_eq|].
    destruct (decide (fallback_path = temp_path)) as [Heq|Hne]; [now left|].
    right. rewrite lookup_insert_ne by exact Hne. apply lookup_delete_eq.
  - split; [apply lookup_insert_eq|].
    destruct (decide (final_path = temp_path)) as [Heq|Hne]; [now left|].
    right. rewrite lookup_insert_ne by exact Hne. apply lookup_delete_eq.
Qed.

(** The theorem on the sample disk, the first move working. *)
Lemma safe_rename_pdf_keeps_document_witness :
  Sample.fs !! Sample.input = Some (PdfDocument [Sample.a_page; Sample.a_page])
  /\ let r := safe_rename_pdf Sample.path_join Sample.browser_ok Sample.input
                              (str_of "edt.pdf") (str_of "pdfs") in
     apply_effects Sample.fs (snd r) !! fst r
     = Some (PdfDocument [Sample.a_page; Sample.a_page])
     /\ (fst r = Sample.input
         \/ apply_effects Sample.fs (snd r) !! Sample.input = None).
Proof.
  split; [reflexivity|].
  apply (safe_rename_pdf_keeps_document
           Sample.path_join Sample.browser_ok Sample.fs Sample.input
           (str_of "edt.pdf") (str_of "pdfs")
           (PdfDocument [Sample.a_page; Sample.a_page])).
  reflexivity.
Defined.

(** ** More on add_message_to_pdf *)

(** What [add_message_to_pdf] can do to the files: nothing, one write to
    the output path, or one copy of the input to the output path. *)
Lemma add_message_to_pdf_effects
    (abspath : pystr -> pystr) (fs : gmap pystr file_data)
    (env : gmap string pystr) (flt : pdf_faults)
    (input output message : pystr) :
  let effects :=
    snd (add_message_to_pdf abspath fs env flt input output message) in
  effects = []
  \/ (exists data, effects = [WriteFile output data])
  \/ (effects = [CopyFile input output]).
Proof.
  cbv zeta.
  assert (Htry :
    let effects :=
      snd (try_add_message abspath fs env flt input output message) in
    effects = [] \/ exists data, effects = [WriteFile output data]).
  { cbv zeta. unfold try_add_message.
    destruct (negb (truthy (Some input)) || negb (exists_file fs input));
      [now left|].
    destruct (negb (truthy (Some message))
              || negb (truthy (Some (FileUtils.strip message))));
      [now left|].
    destruct (fs !! input) as [[pages|data]|]; try (now left).
    destruct (pages_fails flt); [now left|].
    destruct (length pages =? 0)%nat; [now left|].
    destruct (process_pages abspath fs env flt message 0 pages []);
      [|now left].
    destruct (save flt); cbn [snd]; eauto. }
  cbv zeta in Htry. unfold add_message_to_pdf.
  destruct (try_add_message abspath fs env flt input output message)
    as [[v|e] effects] eqn:Hrun; cbn [snd] in *.
  - destruct Htry as [->|Hw]; auto.
  - destruct (is_PDFProcessingError e) eqn:He; cbn [snd].
    + destruct Htry as [->|Hw]; auto.
    + destruct (try_add_message_unexpected _ _ _ _ _ _ _ _ _ Hrun He)
        as [-> _].
      cbn [app].
      destruct (exists_file (apply_effects fs []) input && negb (copy_fails flt));
        auto.
Qed.

(** X12. A message made of white space only is refused like an empty one:
    [add_message_to_pdf] raises [PDFProcessingError] and touches no file. *)
Theorem add_message_to_pdf_blank_message
    (abspath : pystr -> pystr) (fs : gmap pystr file_data)
    (env : gmap string pystr) (flt : pdf_faults)
    (input output message : pystr) :
  FileUtils.strip message = [] ->
  exists why,
    add_message_to_pdf abspath fs env flt input output message
    = (Raise (PDFProcessingError why), []).
Proof.
  intros Hblank. unfold add_message_to_pdf, try_add_message. rewrite Hblank.
  destruct (negb (truthy (Some input)) || negb (exists_file fs input));
    cbn [is_PDFProcessingError]; [eauto|].
  rewrite orb_true_r. cbn [is_PDFProcessingError]. eauto.
Qed.

(** The theorem for a message of three spaces. *)
Lemma add_message_to_pdf_blank_message_witness :
  FileUtils.strip (str_of "   ") = []
  /\ exists why,
       add_message_to_pdf Sample.abspath Sample.fs Sample.env Sample.no_faults
                          Sample.input Sample.output (str_of "   ")
       = (Raise (PDFProcessingError why), []).
Proof.
  split; [reflexivity|].
  apply (add_message_to_pdf_blank_message
           Sample.abspath Sample.fs Sample.env Sample.no_faults
           Sample.input Sample.output (str_of "   ")).
  reflexivity.
Defined.

(** X13. Without an input file (an empty path, or a path at which there is
    no file), [add_message_to_pdf] raises [PDFProcessingError] for the
    missing input, whatever the message, and touches no file: the fallback
    copy is not attempted. *)
Theorem add_message_to_pdf_missing_input
    (abspath : pystr -> pystr) (fs : gmap pystr file_data)
    (env : gmap string pystr) (flt : pdf_faults)
    (input output message : pystr) :
  input = [] \/ fs !! input = None ->
  add_message_to_pdf abspath fs env flt input output message
  = (Raise (PDFProcessingError InputNotFound), []).
Proof.
  intros Hmissing. unfold add_message_to_pdf, try_add_message.
  assert (Hcheck :
    negb (truthy (Some input)) || negb (exists_file fs input) = true).
  { destruct Hmissing as [->|Hnone]; [reflexivity|].
    unfold exists_file. rewrite Hnone.
    rewrite bool_decide_eq_false_2 by (intros [? ?]; discriminate).
    apply orb_true_r. }
  now rewrite Hcheck.
Qed.

(** The theorem for a path at which the sample disk has nothing. *)
Lemma add_message_to_pdf_missing_input_witness :
  (Sample.output = [] \/ Sample.fs !! Sample.output = None)
  /\ add_message_to_pdf Sample.abspath Sample.fs Sample.env Sample.no_faults
                        Sample.output Sample.input (str_of "Vu")
     = (Raise (PDFProcessingError InputNotFound), []).
Proof.
  split; [right; reflexivity|].
  apply (add_message_to_pdf_missing_input
           Sample.abspath Sample.fs Sample.env Sample.no_faults
           Sample.output Sample.input (str_of "Vu")).
  right. reflexivity.
Defined.

(** X14. [add_message_to_pdf] touches the output path only: every other
    file, the input included when it is not the output, holds afterwards
    what it held before, in every outcome. *)
Theorem add_message_to_pdf_touches_output_only
    (abspath : pystr -> pystr) (fs : gmap pystr file_data)
    (env : gmap string pystr) (flt : pdf_faults)
    (input output message path : pystr) :
  path <> output ->
  apply_effects fs
    (snd (add_message_to_pdf abspath fs env flt input output message))
  !! path
  = fs !! path.
Proof.
  intros Hne.
  destruct (add_message_to_pdf_effects abspath fs env flt input output message)
    as [->|[[data ->]| ->]]; cbn.
  - reflexivity.
  - now rewrite lookup_insert_ne.
  - destruct (fs !! input); [now rewrite lookup_insert_ne|reflexivity].
Qed.

(** The theorem for the input file of the sample run. *)
Lemma add_message_to_pdf_touches_output_only_witness :
  Sample.input <> Sample.output
  /\ apply_effects Sample.fs
       (snd (add_message_to_pdf Sample.abspath Sample.fs Sample.env
                                Sample.no_faults Sample.input Sample.output
                                (str_of "Vu")))
     !! Sample.input
     = Sample.fs !! Sample.input.
Proof.
  split; [discriminate|].
  apply (add_message_to_pdf_touches_output_only
           Sample.abspath Sample.fs Sample.env Sample.no_faults
           Sample.input Sample.output (str_of "Vu") Sample.input).
  discriminate.
Defined.

Lemma process_page_cases
    (abspath : pystr -> pystr) (fs : gmap pystr file_data)
    (env : gmap string pystr) (flt : pdf_faults) (message : pystr)
    (page_num : nat) (pg : page) (writer : list page) :
  process_page abspath fs env flt message page_num pg writer
  = if page_lost flt page_num then Raise OtherException
    else Return (writer ++ [stamp_page abspath fs env flt message page_num pg]).
Proof.
  unfold process_page, add_page_in_handler, page_lost, stamp_page.
  destruct (overlay_fails flt page_num); cbn [orb andb].
  - destruct (add_page_again_fails flt page_num); reflexivity.
  - destruct (add_page_fails flt page_num); cbn [andb];
      [destruct (add_page_again_fails flt page_num)|]; reflexivity.
Qed.

Lemma stamp_page_extends
    (abspath : pystr -> pystr) (fs : gmap pystr file_data)
    (env : gmap string pystr) (flt : pdf_faults) (message : pystr)
    (page_num : nat) (pg : page) :
  extends_page pg (stamp_page abspath fs env flt message page_num pg).
Proof.
  unfold extends_page, stamp_page.
  destruct (overlay_fails flt page_num || merge_fails flt page_num).
  - repeat split. exists []. now rewrite app_nil_r.
  - repeat split. cbn. eauto.
Qed.

Lemma process_pages_extends
    (abspath : pystr -> pystr) (fs : gmap pystr file_data)
    (env : gmap string pystr) (flt : pdf_faults) (message : pystr)
    (pages : list page) :
  forall (page_num : nat) (writer out : list page),
  process_pages abspath fs env flt message page_num pages writer = Return out ->
  exists new, out = writer ++ new /\ Forall2 extends_page pages new.
Proof.
  induction pages as [|pg rest IH]; intros page_num writer out; cbn.
  - intros [= <-]. exists []. split; [now rewrite app_nil_r|constructor].
  - rewrite process_page_cases.
    destruct (page_lost flt page_num); cbn [bind]; [discriminate|].
    intros Hrest. destruct (IH _ _ _ Hrest) as (new & -> & Hall).
    exists (stamp_page abspath fs env flt message page_num pg :: new).
    split; [now rewrite <- app_assoc|].
    constructor; [apply stamp_page_extends|exact Hall].
Qed.

Lemma process_pages_raises
    (abspath : pystr -> pystr) (fs : gmap pystr file_data)
    (env : gmap string pystr) (flt : pdf_faults) (message : pystr)
    (pages : list page) :
  forall (page_num : nat) (writer : list page),
  match process_pages abspath fs env flt message page_num pages writer with
  | Return _ => existsb (page_lost flt) (seq page_num (length pages)) = false
  | Raise e => e = OtherException
               /\ existsb (page_lost flt) (seq page_num (length pages)) = true
  end.
Proof.
  induction pages as [|pg rest IH]; intros page_num writer;
    cbn [process_pages length seq existsb]; [reflexivity|].
  rewrite process_page_cases.
  destruct (page_lost flt page_num); cbn [bind orb]; [auto|].
  apply IH.
Qed.

(** X15. Whenever the page loop of [add_message_to_pdf] runs to its end,
    whatever failed on the way, the writer holds one page for each page of
    the input, in the same order, each with the media box of its input page
    and with the content of its input page kept in front of anything drawn
    on it: the overlay is added to a page, it never replaces or removes
    what the page had. *)
Theorem process_pages_keeps_pages
    (abspath : pystr -> pystr) (fs : gmap pystr file_data)
    (env : gmap string pystr) (flt : pdf_faults) (message : pystr)
    (pages out : list page) :
  process_pages abspath fs env flt message 0 pages [] = Return out ->
  length out = length pages /\ Forall2 extends_page pages out.
Proof.
  intros Hrun.
  destruct (process_pages_extends _ _ _ _ _ _ _ _ _ Hrun) as (new & -> & Hall).
  cbn [app]. split; [symmetry; eapply Forall2_length; exact Hall|exact Hall].
Qed.

(** The theorem on the two pages of the sample document. *)
Lemma process_pages_keeps_pages_witness :
  exists out,
    process_pages Sample.abspath Sample.fs Sample.env Sample.no_faults
                  (str_of "Vu") 0 [Sample.a_page; Sample.a_page] []
    = Return out
    /\ length out = length [Sample.a_page; Sample.a_page]
    /\ Forall2 extends_page [Sample.a_page; Sample.a_page] out.
Proof.
  eexists. split; [reflexivity|].
  apply (process_pages_keeps_pages
           Sample.abspath Sample.fs Sample.env Sample.no_faults (str_of "Vu")).
  reflexivity.
Defined.

(** X16. The page loop loses the document in one case only: for some page,
    the [except] block is entered (the overlay could not be built, or adding
    the page raised) and adding the page raises there too. Failures of the
    signature or of the merge never stop the loop. *)
Theorem process_pages_stops_on_lost_page
    (abspath : pystr -> pystr) (fs : gmap pystr file_data)
    (env : gmap string pystr) (flt : pdf_faults) (message : pystr)
    (pages : list page) :
  match process_pages abspath fs env flt message 0 pages [] with
  | Return _ => existsb (page_lost flt) (seq 0 (length pages)) = false
  | Raise e => e = OtherException
               /\ existsb (page_lost flt) (seq 0 (length pages)) = true
  end.
Proof. apply process_pages_raises. Qed.

(** [add_message_to_pdf] once the input is read and the loop has run to its
    end: the outcome is that of the save. *)
Lemma add_message_to_pdf_after_loop
    (abspath : pystr -> pystr) (fs : gmap pystr file_data)
    (env : gmap string pystr) (flt : pdf_faults)
    (input output message : pystr) (pages : list page) :
  input <> [] ->
  fs !! input = Some (PdfDocument pages) ->
  pages <> [] ->
  FileUtils.strip message <> [] ->
  pages_fails flt = false ->
  (forall i, add_page_again_fails flt i = false) ->
  add_message_to_pdf abspath fs env flt input output message
  = match save flt with
    | Saves =>
        (Return true,
         [WriteFile output
            (PdfDocument (imap (stamp_page abspath fs env flt message) pages))])
    | FailsBeforeOpen => (Raise (PDFProcessingError SaveFailed), [])
    | FailsWhileWriting written =>
        (Raise (PDFProcessingError SaveFailed),
         [WriteFile output (OtherData written)])
    end.
Proof.
  intros Hin Hfs Hpages Hmsg Htree Hagain.
  unfold add_message_to_pdf, try_add_message.
  assert (Hex : exists_file fs input = true)
    by (apply bool_decide_eq_true; rewrite Hfs; eauto).
  rewrite Hex. destruct input as [|c input']; [congruence|].
  cbn [truthy negb orb].
  destruct message as [|m message']; [now cbn in Hmsg|].
  destruct (FileUtils.strip (m :: message')) as [|s stripped] eqn:Hstrip;
    [congruence|].
  cbn [truthy negb orb]. rewrite Hfs, Htree.
  destruct pages as [|pg rest]; [congruence|].
  cbn [length Nat.eqb].
  rewrite (process_pages_stamps abspath fs env flt _ _ Hagain).
  destruct (save flt); reflexivity.
Qed.

(** X17. When the overlay cannot be built or merged on any page, the run
    still succeeds and the document written to the output is the input
    document, page for page. *)
Theorem add_message_to_pdf_all_overlays_fail
    (abspath : pystr -> pystr) (fs : gmap pystr file_data)
    (env : gmap string pystr) (flt : pdf_faults)
    (input output message : pystr) (pages : list page) :
  input <> [] ->
  fs !! input = Some (PdfDocument pages) ->
  pages <> [] ->
  FileUtils.strip message <> [] ->
  pages_fails flt = false ->
  (forall i, overlay_fails flt i || merge_fails flt i = true) ->
  (forall i, add_page_again_fails flt i = false) ->
  save flt = Saves ->
  add_message_to_pdf abspath fs env flt input output message
  = (Return true, [WriteFile output (PdfDocument pages)]).
Proof.
  intros Hin Hfs Hpages Hmsg Htree Hfail Hagain Hsave.
  rewrite (add_message_to_pdf_after_loop abspath fs env flt input output
             message pages) by assumption.
  rewrite Hsave. do 4 f_equal.
  etransitivity; [|apply (list_fmap_id pages)].
  rewrite <- imap_const. apply imap_ext.
  intros i pg _. unfold stamp_page. now rewrite Hfail.
Qed.

(** The theorem on the sample document, every overlay failing. *)
Lemma add_message_to_pdf_all_overlays_fail_witness :
  Sample.input <> []
  /\ Sample.fs !! Sample.input
     = Some (PdfDocument [Sample.a_page; Sample.a_page])
  /\ [Sample.a_page; Sample.a_page] <> []
  /\ FileUtils.strip (str_of "Vu") <> []
  /\ add_message_to_pdf Sample.abspath Sample.fs Sample.env
                        SampleFaults.overlays_fail
                        Sample.input Sample.output (str_of "Vu")
     = (Return true,
        [WriteFile Sample.output
                   (PdfDocument [Sample.a_page; Sample.a_page])]).
Proof.
  split; [discriminate|]. split; [reflexivity|]. split; [discriminate|].
  split; [discriminate|].
  apply (add_message_to_pdf_all_overlays_fail
           Sample.abspath Sample.fs Sample.env SampleFaults.overlays_fail
           Sample.input Sample.output (str_of "Vu")
           [Sample.a_page; Sample.a_page]);
    try discriminate; try reflexivity; intros i; reflexivity.
Defined.

(** X18. When writing the output fails, [add_message_to_pdf] raises
    [PDFProcessingError] and does not fall back to copying the input: the
    output path is left without file if the failure came before the file
    was opened, and with the part already written if it came during the
    write. *)
Theorem add_message_to_pdf_save_fails
    (abspath : pystr -> pystr) (fs : gmap pystr file_data)
    (env : gmap string pystr) (flt : pdf_faults)
    (input output message : pystr) (pages : list page) :
  input <> [] ->
  fs !! input = Some (PdfDocument pages) ->
  pages <> [] ->
  FileUtils.strip message <> [] ->
  pages_fails flt = false ->
  (forall i, add_page_again_fails flt i = false) ->
  save flt <> Saves ->
  let run := add_message_to_pdf abspath fs env flt input output message in
  fst run = Raise (PDFProcessingError SaveFailed)
  /\ match save flt with
     | FailsWhileWriting written =>
         apply_effects fs (snd run) !! output = Some (OtherData written)
     | _ => apply_effects fs (snd run) = fs
     end.
Proof.
  intros Hin Hfs Hpages Hmsg Htree Hagain Hsave. cbv zeta.
  rewrite (add_message_to_pdf_after_loop abspath fs env flt input output
             message pages) by assumption.
  destruct (save flt) as [| |written]; [congruence| |]; cbn.
  - auto.
  - split; [reflexivity|apply lookup_insert_eq].
Qed.

(** The theorem when the write stops after three bytes. *)
Lemma add_message_to_pdf_save_fails_witness :
  Sample.input <> []
  /\ Sample.fs !! Sample.input
     = Some (PdfDocument [Sample.a_page; Sample.a_page])
  /\ [Sample.a_page; Sample.a_page] <> []
  /\ FileUtils.strip (str_of "Vu") <> []
  /\ save SampleFaults.save_stops <> Saves
  /\ let run := add_message_to_pdf Sample.abspath Sample.fs Sample.env
                                   SampleFaults.save_stops
                                   Sample.input Sample.output (str_of "Vu") in
     fst run = Raise (PDFProcessingError SaveFailed)
     /\ apply_effects Sample.fs (snd run) !! Sample.output
        = Some (OtherData [x25; x50; x44]%byte).
Proof.
  split; [discriminate|]. split; [reflexivity|]. split; [discriminate|].
  split; [discriminate|]. split; [discriminate|].
  apply (add_message_to_pdf_save_fails
           Sample.abspath Sample.fs Sample.env SampleFaults.save_stops
           Sample.input Sample.output (str_of "Vu")
           [Sample.a_page; Sample.a_page]);
    try discriminate; try reflexivity; intros i; reflexivity.
Defined.

(** ** More on generate_schedule_pdf *)

Lemma find_print_button_matches (br : browser) (sels : list pystr) :
  forall print_button,
  find_print_button br sels print_button = None
  <-> print_button = None
      /\ forall selector, In selector sels -> find_element br selector = None.
Proof.
  induction sels as [|selector rest IH]; intros print_button; cbn.
  - split; [intros ->; split; [reflexivity|intros ? []]|now intros [-> _]].
  - destruct (find_element br selector) as [element|] eqn:Hfind.
    + destruct (get_attribute_fails br element).
      * rewrite IH. split; [intros [[=] _]|].
        intros [_ Hall]. specialize (Hall selector (or_introl eq_refl)).
        congruence.
      * split; [discriminate|].
        intros [_ Hall]. specialize (Hall selector (or_introl eq_refl)).
        congruence.
    + rewrite IH. split.
      * intros [-> Hall]. split; [reflexivity|].
        intros s [<-|Hs]; [exact Hfind|now apply Hall].
      * intros [-> Hall]. split; [reflexivity|]. intros s Hs. apply Hall.
        now right.
Qed.

(** X19. The search for the print button comes back empty-handed exactly
    when no selector matches any element: a match is never dropped, even
    when its attribute cannot be read. *)
Theorem find_print_button_none_iff (br : browser) :
  find_print_button br selectors None = None
  <-> forall selector, In selector selectors -> find_element br selector = None.
Proof.
  rewrite find_print_button_matches. split; [now intros [_ H]|now split].
Qed.

(** X20. The selectors are tried in order and the first one that matches
    an element whose attribute can be read decides: the later selectors are
    not tried, and earlier matches whose attribute could not be read are
    given up for it. *)
Theorem find_print_button_first_readable
    (br : browser) (before after : list pystr) (selector : pystr)
    (element : nat) (print_button : option nat) :
  Forall (fun s => match find_element br s with
                   | Some e => get_attribute_fails br e = true
                   | None => True
                   end) before ->
  find_element br selector = Some element ->
  get_attribute_fails br element = false ->
  find_print_button br (before ++ selector :: after) print_button
  = Some element.
Proof.
  intros Hbefore Hfind Hread. revert print_button.
  induction Hbefore as [|s before Hs Hbefore IH]; intros print_button; cbn.
  - now rewrite Hfind, Hread.
  - destruct (find_element br s) as [e|]; [rewrite Hs|]; apply IH.
Qed.

(** The theorem on the selectors of the program, in a browser where the
    first selector finds nothing, the second finds an element whose
    attribute cannot be read, and the third and the fourth find readable
    elements: the element of the third selector is the button. *)
Lemma find_print_button_first_readable_witness :
  take 2 selectors
  ++ str_of "//img[@src='/dataop/visuel/icones/16x16/Imprimer.gif']/.."
  :: drop 3 selectors = selectors
  /\ find_element SampleFaults.browser_third_selector
       (str_of "//a[contains(@onclick, 'Imprimer()')]") = Some 3%nat
  /\ get_attribute_fails SampleFaults.browser_third_selector 3 = true
  /\ find_element SampleFaults.browser_third_selector
       (str_of "//img[contains(@src, 'Imprimer.gif')]/..") = Some 9%nat
  /\ get_attribute_fails SampleFaults.browser_third_selector 9 = false
  /\ find_print_button SampleFaults.browser_third_selector selectors None
     = Some 5%nat.
Proof.
  split; [reflexivity|]. split; [reflexivity|]. split; [reflexivity|].
  split; [reflexivity|]. split; [reflexivity|].
  apply (find_print_button_first_readable
           SampleFaults.browser_third_selector
           (take 2 selectors) (drop 3 selectors)
           (str_of "//img[@src='/dataop/visuel/icones/16x16/Imprimer.gif']/..")
           5%nat None).
  - repeat constructor.
  - reflexivity.
  - reflexivity.
Defined.

(** X21. When no match has a readable attribute, the button used is the
    last element matched: [print_button] is assigned before the attribute
    is read, and the failure of the reading only moves on to the next
    selector. *)
Theorem find_print_button_unreadable (br : browser) (sels : list pystr) :
  (forall element, get_attribute_fails br element = true) ->
  find_print_button br sels None = last (omap (find_element br) sels).
Proof.
  intros Hunreadable.
  assert (Hgen : forall print_button,
    find_print_button br sels print_button
    = from_option Some print_button (last (omap (find_element br) sels))).
  { induction sels as [|s rest IH]; intros print_button; cbn; [reflexivity|].
    destruct (find_element br s) as [e|]; [|apply IH].
    rewrite Hunreadable, IH.
    destruct (omap (find_element br) rest) as [|x l] eqn:Hrest;
      [reflexivity|].
    change (last (e :: x :: l)) with (last (x :: l)).
    destruct (last (x :: l)) as [y|] eqn:Hlast; [reflexivity|].
    apply last_None in Hlast. discriminate. }
  rewrite Hgen. now destruct (last (omap (find_element br) sels)).
Qed.

(** The theorem in the browser whose only match cannot be read: the capture
    goes on with that element. *)
Lemma find_print_button_unreadable_witness :
  (forall element,
     get_attribute_fails SampleFaults.browser_unreadable_button element = true)
  /\ find_print_button SampleFaults.browser_unreadable_button selectors None
     = last (omap (find_element SampleFaults.browser_unreadable_button)
                  selectors)
  /\ find_print_button SampleFaults.browser_unreadable_button selectors None
     = Some 7%nat.
Proof.
  split; [reflexivity|]. split; [|reflexivity].
  apply (find_print_button_unreadable
           SampleFaults.browser_unreadable_button selectors).
  reflexivity.
Defined.

(** X22. The three ways [generate_schedule_pdf] ends. It lets one
    exception out only, that of [os.makedirs] on the save folder, raised
    before anything is done. Once the folder is there it returns [None] in
    these cases, and in no other: no selector gives a button; installing
    the print override or the click raises; the print command raises or
    returns no data; decoding the data raises; writing the temporary file
    fails; [add_message_to_pdf] raises; removing the temporary file
    raises. In every remaining case it returns a path. *)
Theorem generate_schedule_pdf_outcomes
    (abspath : pystr -> pystr) (path_join : pystr -> pystr -> pystr)
    (week_label : pystr -> pystr) (fs : gmap pystr file_data)
    (env : gmap string pystr) (br : browser) (flt : pdf_faults) (clk : clock)
    (save_folder : pystr) (target_date : option pystr) :
  let run := generate_schedule_pdf abspath path_join week_label env br flt
                                   fs clk save_folder target_date in
  let expected :=
    path_join save_folder
              (FileUtils.create_pdf_filename week_label env clk target_date) in
  let temp := abspath (replace (str_of ".pdf") (str_of "_temp.pdf") expected) in
  let stamped := replace (str_of ".pdf") (str_of "_with_message.pdf") expected in
  let message :=
    FileUtils.getenv_default env "PDF_MESSAGE" default_pdf_message in
  ((exists e, fst (fst run) = Raise e)
   <-> makedirs_fails br = true)
  /\ (fst (fst run) = Raise OtherException /\ snd (fst run) = []
      \/ exists result, fst (fst run) = Return result)
  /\ (fst (fst run) = Return None
      <-> makedirs_fails br = false
          /\ (find_print_button br selectors None = None
              \/ (exists button,
                    find_print_button br selectors None = Some button
                    /\ (execute_script_fails br = true
                        \/ click_fails br button = true))
              \/ (exists e, print_to_pdf br = Raise e)
              \/ print_to_pdf br = Return None
              \/ (exists data,
                    print_to_pdf br = Return (Some data)
                    /\ ((exists e, b64decode br data = Raise e)
                        \/ temp_write br <> Saves
                        \/ (exists pdf_data e,
                              b64decode br data = Return pdf_data
                              /\ fst (add_message_to_pdf
                                        abspath (<[temp := pdf_data]> fs) env
                                        flt temp stamped message)
                                 = Raise e)
                        \/ remove_fails br = true)))).
Proof.
  cbv zeta. unfold generate_schedule_pdf.
  destruct (makedirs_fails br) eqn:Hdir.
  { cbn [fst snd]. split; [split; eauto|]. split; [now left|].
    split; [discriminate|]. intros [? _]. discriminate. }
  destruct (find_print_button br selectors None) as [button|] eqn:Hbutton.
  2:{ cbn [fst snd]. split; [split; [intros [e He]|]; discriminate|].
      split; [right; eauto|]. split; [auto|reflexivity]. }
  destruct (execute_script_fails br) eqn:Hscript; cbn [orb].
  { cbn [fst snd]. split; [split; [intros [e He]|]; discriminate|].
    split; [right; eauto|]. split; [|reflexivity].
    intros _. split; [reflexivity|]. right. left. eauto. }
  destruct (click_fails br button) eqn:Hclick.
  { cbn [fst snd]. split; [split; [intros [e He]|]; discriminate|].
    split; [right; eauto|]. split; [|reflexivity].
    intros _. split; [reflexivity|]. right. left. eauto. }
  destruct (print_to_pdf br) as [[data|]|e] eqn:Hprint.
  2:{ cbn [fst snd]. split; [split; [intros [e He]|]; discriminate|].
      split; [right; eauto|]. split; [|reflexivity].
      intros _. split; [reflexivity|]. do 3 right. now left. }
  2:{ cbn [fst snd]. split; [split; [intros [e' He]|]; discriminate|].
      split; [right; eauto|]. split; [|reflexivity].
      intros _. split; [reflexivity|]. do 2 right. left. eauto. }
  unfold save_and_stamp. cbv zeta.
  set (expected :=
         path_join save_folder
           (FileUtils.create_pdf_filename week_label env clk target_date)).
  set (temp := abspath (replace (str_of ".pdf") (str_of "_temp.pdf") expected)).
  set (stamped :=
         replace (str_of ".pdf") (str_of "_with_message.pdf") expected).
  set (message :=
         FileUtils.getenv_default env "PDF_MESSAGE" default_pdf_message).
  destruct (b64decode br data) as [pdf_data|e] eqn:Hdecode.
  2:{ cbn [fst snd]. split; [split; [intros [e' He]|]; discriminate|].
      split; [right; eauto|]. split; [|reflexivity].
      intros _. split; [reflexivity|]. do 4 right. exists data.
      split; [reflexivity|]. left. eauto. }
  destruct (temp_write br) eqn:Hwrite.
  2:{ cbn [fst snd]. split; [split; [intros [e' He]|]; discriminate|].
      split; [right; eauto|]. split; [|reflexivity].
      intros _. split; [reflexivity|]. do 4 right. exists data.
      split; [reflexivity|]. right. left. discriminate. }
  2:{ cbn [fst snd]. split; [split; [intros [e' He]|]; discriminate|].
      split; [right; eauto|]. split; [|reflexivity].
      intros _. split; [reflexivity|]. do 4 right. exists data.
      split; [reflexivity|]. right. left. discriminate. }
  change (apply_effects fs [WriteFile temp pdf_data])
    with (<[temp := pdf_data]> fs).
  pose proof (add_message_to_pdf_never_False abspath (<[temp := pdf_data]> fs)
                env flt temp stamped message) as Hnever.
  destruct (add_message_to_pdf abspath (<[temp := pdf_data]> fs) env flt
                               temp stamped message)
    as [[[|]|e'] eff] eqn:Hadd; cbn [fst] in Hnever; [|congruence|].
  2:{ cbn [fst snd]. split; [split; [intros [e'' He]|]; discriminate|].
      split; [right; eauto|]. split; [|reflexivity].
      intros _. split; [reflexivity|]. do 4 right. exists data.
      split; [reflexivity|]. do 2 right. left.
      exists pdf_data, e'. split; [exact Hdecode|]. now rewrite Hadd. }
  destruct (remove_fails br) eqn:Hremove.
  { cbn [fst snd]. split; [split; [intros [e'' He]|]; discriminate|].
    split; [right; eauto|]. split; [|reflexivity].
    intros _. split; [reflexivity|]. do 4 right. exists data.
    split; [reflexivity|]. do 3 right. reflexivity. }
  destruct (safe_rename_pdf path_join br stamped _ save_folder)
    as [final_path moved].
  cbn [fst snd]. split; [split; [intros [e'' He]|]; discriminate|].
  split; [right; eauto|]. split; [discriminate|].
  intros [_ Hfail]. exfalso.
  destruct Hfail as [H|[(b & [= <-] & [H|H])|[[e H]|[H|(d & [= <-] & H)]]]];
    try discriminate; try congruence.
  destruct H as [[e H]|[H|[(pd & e & Hpd & H)|H]]]; try congruence.
  rewrite Hdecode in Hpd. injection Hpd as <-.
  rewrite Hadd in H. discriminate.
Qed.

(** ** More on main and the script *)

(** X23. When a required value is missing or when creating the folder,
    configuring or starting the browser, the sign-on or the navigation
    fails, [main] writes no file, does not start the capture and reports a
    [ScheduleGenerationError]; it returns 1, but for one case: in debug
    mode and with the browser started, a Ctrl+C at the prompt of the
    [finally] block leaves [main] with [KeyboardInterrupt] instead. *)
Theorem main_returns_1_before_capture
    (abspath : pystr -> pystr) (path_join : pystr -> pystr -> pystr)
    (week_label : pystr -> pystr) (env : gmap string pystr) (br : browser)
    (flt : pdf_faults) (sf : session_faults)
    (fs : gmap pystr file_data) (clk : clock)
    (username password nom_prenom promo target_date : option pystr)
    (save_folder : pystr) (debug_mode : bool) :
  negb (truthy username) || negb (truthy password)
  || negb (truthy nom_prenom) || negb (truthy promo)
  || ensure_directory_fails sf || chrome_options_fail sf
  || chrome_start_fails sf || login_fails sf || navigate_fails sf = true ->
  main abspath path_join week_label env br flt sf fs clk
       username password nom_prenom promo target_date save_folder debug_mode
  = (if debug_mode && is_interrupted (input_in_main sf)
        && truthy username && truthy password
        && truthy nom_prenom && truthy promo
        && negb (ensure_directory_fails sf) && negb (chrome_options_fail sf)
        && negb (chrome_start_fails sf)
     then KeyboardInterrupt else Returns 1,
     [], [GenerationError]).
Proof.
  intros Hfail.
  unfold main, finally_main, driver_started, try_main, login,
    navigate_to_schedule.
  destruct (truthy username), (truthy password), (truthy nom_prenom),
    (truthy promo); cbn [negb orb andb] in *;
    rewrite ?andb_false_r; cbn [andb]; try reflexivity.
  destruct (ensure_directory_fails sf); cbn [negb orb andb];
    rewrite ?andb_false_r; [reflexivity|].
  destruct (chrome_options_fail sf); cbn [negb orb andb];
    rewrite ?andb_false_r; [reflexivity|].
  destruct (chrome_start_fails sf); cbn [negb orb andb];
    rewrite ?andb_false_r; [reflexivity|].
  cbn [orb] in *. rewrite ?andb_true_r.
  destruct (login_fails sf);
    [|cbn [orb] in Hfail; rewrite Hfail];
    destruct debug_mode; cbn [andb]; try reflexivity;
    destruct (input_in_main sf); reflexivity.
Qed.

(** The theorem when the sign-on fails in debug mode and the operator
    presses Enter at the prompt. *)
Lemma main_returns_1_before_capture_witness :
  negb (truthy (Some (str_of "jdoe"))) || negb (truthy (Some (str_of "secret")))
  || negb (truthy (Some (str_of "DOE John")))
  || negb (truthy (Some (str_of "FIPA3R")))
  || ensure_directory_fails Sample.session_login_fails
  || chrome_options_fail Sample.session_login_fails
  || chrome_start_fails Sample.session_login_fails
  || login_fails Sample.session_login_fails
  || navigate_fails Sample.session_login_fails = true
  /\ main Sample.abspath Sample.path_join Sample.week_label Sample.env
          Sample.browser_ok Sample.no_faults Sample.session_login_fails
          Sample.fs Sample.clk
          (Some (str_of "jdoe")) (Some (str_of "secret"))
          (Some (str_of "DOE John")) (Some (str_of "FIPA3R"))
          (Some (str_of "20250915")) (str_of "pdfs") true
     = (Returns 1, [], [GenerationError]).
Proof.
  split; [reflexivity|].
  apply (main_returns_1_before_capture
           Sample.abspath Sample.path_join Sample.week_label Sample.env
           Sample.browser_ok Sample.no_faults Sample.session_login_fails
           Sample.fs Sample.clk
           (Some (str_of "jdoe")) (Some (str_of "secret"))
           (Some (str_of "DOE John")) (Some (str_of "FIPA3R"))
           (Some (str_of "20250915")) (str_of "pdfs") true).
  reflexivity.
Defined.


(** The debug mode on three runs. With the standard input at its end the
    [input()] that closes the script raises [EOFError] and the process exits
    with status 1, although the document was produced. With an operator who
    presses Ctrl+C at the first prompt, [main] is left by
    [KeyboardInterrupt], which the script catches: status 0. A value of
    [DEBUG_MODE] is read whatever its case. *)
Example script_debug_mode :
  debug_mode_of Sample.lower SampleFaults.env_debug = true
  /\ fst (fst (script Sample.abspath Sample.path_join Sample.week_label
                  SampleFaults.env_debug Sample.browser_ok Sample.no_faults
                  SampleFaults.session_without_input
                  Sample.py_int Sample.lower Sample.fs Sample.clk Sample.clk))
     = 1
  /\ fst (fst (main Sample.abspath Sample.path_join Sample.week_label
                   SampleFaults.env_debug Sample.browser_ok Sample.no_faults
                   SampleFaults.session_without_input Sample.fs Sample.clk
                   (Some (str_of "jdoe")) (Some (str_of "secret"))
                   (Some (str_of "DOE John")) (Some (str_of "FIPA3R"))
                   (Some (str_of "20250915")) (str_of "pdfs") true))
     = Returns 0
  /\ fst (fst (main Sample.abspath Sample.path_join Sample.week_label
                   SampleFaults.env_debug Sample.browser_ok Sample.no_faults
                   SampleFaults.session_interrupted Sample.fs Sample.clk
                   (Some (str_of "jdoe")) (Some (str_of "secret"))
                   (Some (str_of "DOE John")) (Some (str_of "FIPA3R"))
                   (Some (str_of "20250915")) (str_of "pdfs") true))
     = KeyboardInterrupt
  /\ fst (fst (script Sample.abspath Sample.path_join Sample.week_label
                  SampleFaults.env_debug Sample.browser_ok Sample.no_faults
                  SampleFaults.session_interrupted
                  Sample.py_int Sample.lower Sample.fs Sample.clk Sample.clk))
     = 0.
Proof. repeat split; vm_compute; reflexivity. Qed.

(** ** The capture, end to end *)

Lemma add_message_to_pdf_True_inv
    (abspath : pystr -> pystr) (fs : gmap pystr file_data)
    (env : gmap string pystr) (flt : pdf_faults)
    (input output message : pystr) (effects : list fs_effect) :
  add_message_to_pdf abspath fs env flt input output message
  = (Return true, effects) ->
  exists pages out,
    fs !! input = Some (PdfDocument pages)
    /\ process_pages abspath fs env flt message 0 pages [] = Return out
    /\ effects = [WriteFile output (PdfDocument out)].
Proof.
  unfold add_message_to_pdf.
  destruct (try_add_message abspath fs env flt input output message)
    as [[v|e] eff] eqn:Htry.
  - intros [= -> ->]. unfold try_add_message in Htry.
    destruct (negb (truthy (Some input)) || negb (exists_file fs input));
      [discriminate|].
    destruct (negb (truthy (Some message))
              || negb (truthy (Some (FileUtils.strip message))));
      [discriminate|].
    destruct (fs !! input) as [[pages|data]|]; try discriminate.
    destruct (pages_fails flt); [discriminate|].
    destruct (length pages =? 0)%nat; [discriminate|].
    destruct (process_pages abspath fs env flt message 0 pages [])
      as [out|e] eqn:Hloop; [|discriminate].
    destruct (save flt); try discriminate.
    injection Htry as <-. eauto.
  - destruct (is_PDFProcessingError e); discriminate.
Qed.

Lemma safe_rename_pdf_moves
    (path_join : pystr -> pystr -> pystr) (br : browser)
    (fs : gmap pystr file_data)
    (temp_path target_filename save_folder final_path : pystr)
    (moved : list fs_effect) (data : file_data) :
  fs !! temp_path = Some data ->
  safe_rename_pdf path_join br temp_path target_filename save_folder
  = (final_path, moved) ->
  apply_effects fs moved !! final_path = Some data.
Proof.
  intros Hfs. unfold safe_rename_pdf. cbv zeta.
  destruct (move_fails br (path_join save_folder target_filename));
    cbn [negb]; [destruct (move_fails br _); cbn [negb]|];
    intros [= <- <-]; cbn; rewrite ?Hfs;
    [reflexivity|apply lookup_insert_eq|apply lookup_insert_eq].
Qed.

(** What the page loop returns, when it returns: page after page, the
    stamped pages behind what the writer held. *)
Lemma process_pages_returns
    (abspath : pystr -> pystr) (fs : gmap pystr file_data)
    (env : gmap string pystr) (flt : pdf_faults) (message : pystr)
    (pages : list page) :
  forall (page_num : nat) (writer out : list page),
  process_pages abspath fs env flt message page_num pages writer = Return out ->
  out = writer
        ++ imap (fun i => stamp_page abspath fs env flt message (page_num + i))
                pages.
Proof.
  induction pages as [|pg rest IH]; intros page_num writer out;
    cbn [process_pages imap].
  - intros [= <-]. now rewrite app_nil_r.
  - rewrite process_page_cases.
    destruct (page_lost flt page_num); cbn [bind]; [discriminate|].
    intros Hrest. rewrite (IH _ _ _ Hrest), <- app_assoc. cbn [app].
    rewrite Nat.add_0_r. do 2 f_equal.
    apply imap_ext. intros i x _. unfold compose. f_equal. lia.
Qed.

(** X25. A path returned by [generate_schedule_pdf] is the path of the
    stamped capture: provided the two temporary paths differ, the file at
    the returned path holds, once the function has returned, one page for
    each page of the document the browser printed, in order, and each of
    them is the printed page with its overlay merged on it, or the printed
    page itself when building or merging that overlay failed: nothing
    else is added and nothing is taken away. *)
Theorem generate_schedule_pdf_returned_path
    (abspath : pystr -> pystr) (path_join : pystr -> pystr -> pystr)
    (week_label : pystr -> pystr) (fs : gmap pystr file_data)
    (env : gmap string pystr) (br : browser) (flt : pdf_faults) (clk : clock)
    (save_folder : pystr) (target_date : option pystr)
    (final_path : pystr) (effects : list fs_effect) (l : log) :
  let expected :=
    path_join save_folder
              (FileUtils.create_pdf_filename week_label env clk target_date) in
  let temp := abspath (replace (str_of ".pdf") (str_of "_temp.pdf") expected) in
  let stamped := replace (str_of ".pdf") (str_of "_with_message.pdf") expected in
  let message :=
    FileUtils.getenv_default env "PDF_MESSAGE" default_pdf_message in
  temp <> stamped ->
  generate_schedule_pdf abspath path_join week_label env br flt
                        fs clk save_folder target_date
  = (Return (Some final_path), effects, l) ->
  exists data pages,
    print_to_pdf br = Return (Some data)
    /\ b64decode br data = Return (PdfDocument pages)
    /\ apply_effects fs effects !! final_path
       = Some (PdfDocument
                 (imap (stamp_page abspath (<[temp := PdfDocument pages]> fs)
                                   env flt message)
                       pages))
    /\ Forall2
         (fun pg pg' =>
            pg' = pg
            \/ exists page_num,
                 pg' = merge_page pg
                         (overlay_for abspath (<[temp := PdfDocument pages]> fs)
                                      env flt page_num pg message))
         pages
         (imap (stamp_page abspath (<[temp := PdfDocument pages]> fs)
                           env flt message)
               pages).
Proof.
  intros expected temp stamped message Hne. unfold generate_schedule_pdf.
  destruct (makedirs_fails br); [discriminate|].
  destruct (find_print_button br selectors None); [|discriminate].
  destruct (execute_script_fails br || click_fails br n); [discriminate|].
  destruct (print_to_pdf br) as [[data|]|e] eqn:Hprint; try discriminate.
  unfold save_and_stamp. cbv zeta.
  fold expected. fold temp. fold stamped. fold message.
  destruct (b64decode br data) as [pdf_data|e] eqn:Hdec; [|discriminate].
  destruct (temp_write br); try discriminate.
  change (apply_effects fs [WriteFile temp pdf_data])
    with (<[temp := pdf_data]> fs).
  pose proof (add_message_to_pdf_never_False abspath (<[temp := pdf_data]> fs)
                env flt temp stamped message) as Hnever.
  destruct (add_message_to_pdf abspath (<[temp := pdf_data]> fs) env flt
                               temp stamped message)
    as [[[|]|e'] eff] eqn:Hadd; cbn [fst] in Hnever; [|congruence|discriminate].
  destruct (remove_fails br); [discriminate|].
  destruct (safe_rename_pdf path_join br stamped _ save_folder) as [fp moved]
    eqn:Hmove.
  intros [= <- <- <-].
  apply add_message_to_pdf_True_inv in Hadd
    as (pages & out & Hinput & Hloop & ->).
  rewrite lookup_insert_eq in Hinput. injection Hinput as ->.
  apply process_pages_returns in Hloop. cbn [app] in Hloop. subst out.
  exists data, pages.
  split; [reflexivity|]. split; [exact Hdec|]. split.
  - cbn [app apply_effects fold_left apply_effect].
    eapply safe_rename_pdf_moves; [|exact Hmove].
    rewrite lookup_delete_ne by exact Hne. apply lookup_insert_eq.
  - apply Forall2_same_length_lookup_2; [now rewrite length_imap|].
    intros i pg pg' Hpg Hpg'.
    rewrite list_lookup_imap, Hpg in Hpg'. injection Hpg' as <-.
    unfold stamp_page.
    destruct (overlay_fails flt i || merge_fails flt i); [now left|].
    right. now exists i.
Qed.

(** The theorem on the run where everything works. *)
Lemma generate_schedule_pdf_returned_path_witness :
  exists final_path effects l,
    generate_schedule_pdf Sample.abspath Sample.path_join Sample.week_label
      Sample.env Sample.browser_ok Sample.no_faults
      Sample.fs Sample.clk (str_of "pdfs") (Some (str_of "20250915"))
    = (Return (Some final_path), effects, l)
    /\ exists data pages,
         print_to_pdf Sample.browser_ok = Return (Some data)
         /\ b64decode Sample.browser_ok data = Return (PdfDocument pages)
         /\ apply_effects Sample.fs effects !! final_path
            = Some (PdfDocument
                      [merge_page Sample.a_page
                         (overlay_for Sample.abspath Sample.fs Sample.env
                                      Sample.no_faults 0 Sample.a_page
                                      default_pdf_message)]).
Proof.
  eexists _, _, _. split; [vm_compute; reflexivity|].
  destruct (generate_schedule_pdf_returned_path
              Sample.abspath Sample.path_join Sample.week_label Sample.fs
              Sample.env Sample.browser_ok Sample.no_faults Sample.clk
              (str_of "pdfs") (Some (str_of "20250915")) _ _ _
              ltac:(vm_compute; discriminate) eq_refl)
    as (data & pages & Hprint & Hdec & Hfile & _).
  exists data, pages. split; [exact Hprint|]. split; [exact Hdec|].
  etransitivity; [exact Hfile|].
  vm_compute in Hprint. injection Hprint as <-.
  vm_compute in Hdec. injection Hdec as <-. reflexivity.
Defined.

(** X26. A capture that fails (the function returns [None]) can leave
    the two temporary files behind, and nothing else: the file at any other path, the final path of the schedule
    among them, is as it was before the call. *)
Theorem generate_schedule_pdf_failure_frame
    (abspath : pystr -> pystr) (path_join : pystr -> pystr -> pystr)
    (week_label : pystr -> pystr) (fs : gmap pystr file_data)
    (env : gmap string pystr) (br : browser) (flt : pdf_faults) (clk : clock)
    (save_folder : pystr) (target_date : option pystr)
    (effects : list fs_effect) (l : log) (path : pystr) :
  let expected :=
    path_join save_folder
              (FileUtils.create_pdf_filename week_label env clk target_date) in
  generate_schedule_pdf abspath path_join week_label env br flt
                        fs clk save_folder target_date
  = (Return None, effects, l) ->
  path <> abspath (replace (str_of ".pdf") (str_of "_temp.pdf") expected) ->
  path <> replace (str_of ".pdf") (str_of "_with_message.pdf") expected ->
  apply_effects fs effects !! path = fs !! path.
Proof.
  intros expected. unfold generate_schedule_pdf.
  destruct (makedirs_fails br); [discriminate|].
  destruct (find_print_button br selectors None);
    [|intros [= <- <-]; reflexivity].
  destruct (execute_script_fails br || click_fails br n);
    [intros [= <- <-]; reflexivity|].
  destruct (print_to_pdf br) as [[data|]|e];
    [|intros [= <- <-]; reflexivity..].
  unfold save_and_stamp. cbv zeta. fold expected.
  set (T := abspath (replace (str_of ".pdf") (str_of "_temp.pdf") expected)).
  set (F := replace (str_of ".pdf") (str_of "_with_message.pdf") expected).
  destruct (b64decode br data) as [pdf_data|e];
    [|intros [= <- <-]; reflexivity].
  destruct (temp_write br);
    [|intros [= <- <-]; reflexivity
     |intros [= <- <-] HT HF; cbn; now rewrite lookup_insert_ne].
  assert (Hframe : forall eff,
    eff = snd (add_message_to_pdf abspath
                 (apply_effects fs [WriteFile T pdf_data]) env flt T F
                 (FileUtils.getenv_default env "PDF_MESSAGE"
                                           default_pdf_message)) ->
    path <> T -> path <> F ->
    apply_effects fs ([WriteFile T pdf_data] ++ eff) !! path = fs !! path).
  { intros eff -> HT HF.
    destruct (add_message_to_pdf_effects abspath
                (apply_effects fs [WriteFile T pdf_data]) env flt T F
                (FileUtils.getenv_default env "PDF_MESSAGE"
                                          default_pdf_message))
      as [-> | [[d ->] | ->]]; cbn.
    - now rewrite lookup_insert_ne.
    - now rewrite !lookup_insert_ne.
    - rewrite lookup_insert_eq. now rewrite !lookup_insert_ne. }
  destruct (add_message_to_pdf abspath
              (apply_effects fs [WriteFile T pdf_data]) env flt T F
              (FileUtils.getenv_default env "PDF_MESSAGE" default_pdf_message))
    as [[[|]|e'] eff].
  - destruct (remove_fails br).
    + intros [= <- <-]. now apply Hframe.
    + destruct (safe_rename_pdf path_join br F _ save_folder).
      discriminate.
  - destruct (safe_rename_pdf path_join br T _ save_folder). discriminate.
  - intros [= <- <-]. now apply Hframe.
Qed.

(** The theorem on a capture whose page tree cannot be read: the two
    temporary files are written, the schedule is not. *)
Lemma generate_schedule_pdf_failure_frame_witness :
  exists effects l,
    generate_schedule_pdf Sample.abspath Sample.path_join Sample.week_label
      Sample.env Sample.browser_ok (Sample.broken_pages false)
      Sample.fs Sample.clk (str_of "pdfs") (Some (str_of "20250915"))
    = (Return None, effects, l)
    /\ effects <> []
    /\ apply_effects Sample.fs effects
       !! Sample.path_join (str_of "pdfs")
            (FileUtils.create_pdf_filename Sample.week_label Sample.env
               Sample.clk (Some (str_of "20250915")))
       = Sample.fs
         !! Sample.path_join (str_of "pdfs")
              (FileUtils.create_pdf_filename Sample.week_label Sample.env
                 Sample.clk (Some (str_of "20250915"))).
Proof.
  eexists _, _. split; [vm_compute; reflexivity|].
  split; [discriminate|].
  eapply (generate_schedule_pdf_failure_frame
            Sample.abspath Sample.path_join Sample.week_label Sample.fs
            Sample.env Sample.browser_ok (Sample.broken_pages false)
            Sample.clk
            (str_of "pdfs") (Some (str_of "20250915")));
    [reflexivity | vm_compute; discriminate | vm_compute; discriminate].
Defined.
